(** * RISE API: a shallow embedding of [main.py] and its properties

    The development follows the layout of the source file: the Python
    builtins and library calls the routes rely on, the document store the
    routes talk to, the request and response schemas, the routes, and then
    the properties of the schedule proposer, of the XP engine and of the
    task lifecycle. *)

From Equations Require Import Equations.
From stdpp Require Import gmap strings list.
From Stdlib Require Import ZArith Lia Ascii String Sorted Permutation DecimalString.
From Stdlib.Strings Require Import Byte.

#[local] Open Scope string_scope.
#[local] Open Scope Z_scope.

(** ** Exceptions and results *)

(** What a route can raise.  [HTTPException] is the one the routes raise
    themselves; the others escape from library calls and reach the client
    as an internal server error. *)
Inductive exn : Type :=
  | HTTPException (status_code : Z) (detail : string)
  | InvalidId          (* bson.errors.InvalidId *)
  | ValueError
  | OverflowError
  | NotImplementedError
  | DatabaseNotAvailable.

Inductive result (A : Type) : Type :=
  | Ok (a : A)
  | Raise (e : exn).
Arguments Ok {A} a.
Arguments Raise {A} e.

Definition bind {A B : Type} (r : result A) (k : A -> result B) : result B :=
  match r with
  | Ok a => k a
  | Raise e => Raise e
  end.

Notation "'let*' x ':=' r 'in' k" := (bind r (fun x => k))
  (at level 10, x pattern, r at level 100, k at level 200).

(** ** Python builtins *)

Module Py.

(** [needle in hay] on [str]. *)
Fixpoint contains (needle hay : string) : bool :=
  String.prefix needle hay ||
  match hay with
  | EmptyString => false
  | String _ rest => contains needle rest
  end.

(** [s or ""] for an [Optional[str]]: [None] and the empty string are both
    falsy. *)
Definition or_empty (s : option string) : string :=
  match s with
  | Some (String c r) => String c r
  | _ => ""
  end.

(** Truth value of a [str]. *)
Definition truthy (s : string) : bool :=
  match s with
  | EmptyString => false
  | String _ _ => true
  end.

Fixpoint zeros (k : nat) : string :=
  match k with
  | O => ""
  | S k' => String "0" (zeros k')
  end.

(** ["%0<width>d" % n]: the sign, if any, counts in the width. *)
Definition zfill (width : nat) (n : Z) : string :=
  let digits := NilZero.string_of_uint (N.to_uint (Z.abs_N n)) in
  if n <? 0 then "-" +:+ zeros (width - 1 - String.length digits) +:+ digits
  else zeros (width - String.length digits) +:+ digits.

(** [<] on [str] compares code points, which on UTF-8 encoded text is the
    order of the bytes: [String.leb]. [list.sort(key=...)] is a stable
    sort; a stable sort has one possible result, computed here by
    insertion. *)
Section Sort.
Context {A : Type} (key : A -> string).

Fixpoint insert (x : A) (l : list A) : list A :=
  match l with
  | [] => [x]
  | y :: l' =>
      if String.leb (key x) (key y) then x :: y :: l'
      else y :: insert x l'
  end.

Fixpoint sort (l : list A) : list A :=
  match l with
  | [] => []
  | x :: l' => insert x (sort l')
  end.
End Sort.

(** Value of a hexadecimal digit. *)
Definition hexval (c : ascii) : option N :=
  let n := N_of_ascii c in
  if (48 <=? n)%N && (n <=? 57)%N then Some (n - 48)%N
  else if (97 <=? n)%N && (n <=? 102)%N then Some (n - 87)%N
  else if (65 <=? n)%N && (n <=? 70)%N then Some (n - 55)%N
  else None.

(** ASCII whitespace: tab, line feed, vertical tab, form feed, carriage
    return, space. *)
Definition isspace (c : ascii) : bool :=
  let n := N_of_ascii c in
  ((9 <=? n)%N && (n <=? 13)%N) || (n =? 32)%N.

Definition byte_of (hi lo : N) : byte :=
  default x00 (Byte.of_N (16 * hi + lo)).

(** [bytes.fromhex(s)]: pairs of hexadecimal digits, whitespace allowed
    between the pairs; [None] stands for [ValueError]. *)
Fixpoint fromhex (s : string) : option (list byte) :=
  match s with
  | EmptyString => Some []
  | String c rest =>
      if isspace c then fromhex rest
      else
        match hexval c, rest with
        | Some hi, String c' rest' =>
            match hexval c' with
            | Some lo => cons (byte_of hi lo) <$> fromhex rest'
            | None => None
            end
        | _, _ => None
        end
  end.

Definition hexdigit (n : N) : ascii :=
  if (n <? 10)%N then ascii_of_N (48 + n) else ascii_of_N (87 + n).

(** [binascii.hexlify(b).decode()]. *)
Fixpoint hexlify (b : list byte) : string :=
  match b with
  | [] => ""
  | x :: b' =>
      let n := Byte.to_N x in
      String (hexdigit (n / 16)) (String (hexdigit (n mod 16)) (hexlify b'))
  end.

End Py.

(** ** [datetime] *)

Module Datetime.

(** A [date] is kept as its proleptic Gregorian ordinal
    ([date.toordinal()]): day 1 is 0001-01-01 and [MAXORDINAL] is
    9999-12-31. *)
Definition date : Type := Z.

Definition MAXORDINAL : Z := 3652059.

Definition valid_date (d : date) : Prop := 0 < d <= MAXORDINAL.

Definition DAYS_BEFORE_MONTH (month : Z) : Z :=
  nth (Z.to_nat month) [-1; 0; 31; 59; 90; 120; 151; 181; 212; 243; 273; 304; 334] 0.

Definition DAYS_IN_MONTH (month : Z) : Z :=
  nth (Z.to_nat month) [-1; 31; 28; 31; 30; 31; 30; 31; 31; 30; 31; 30; 31] 0.

(** [_ord2ymd]: ordinal to (year, month, day). *)
Definition ord2ymd (n : Z) : Z * Z * Z :=
  let n := n - 1 in
  let n400 := n / 146097 in let n := n mod 146097 in
  let year := n400 * 400 + 1 in
  let n100 := n / 36524 in let n := n mod 36524 in
  let n4 := n / 1461 in let n := n mod 1461 in
  let n1 := n / 365 in let n := n mod 365 in
  let year := year + n100 * 100 + n4 * 4 + n1 in
  if (n1 =? 4) || (n100 =? 4) then (year - 1, 12, 31)
  else
    let leapyear := (n1 =? 3) && (negb (n4 =? 24) || (n100 =? 3)) in
    let month := Z.shiftr (n + 50) 5 in
    let preceding :=
      DAYS_BEFORE_MONTH month + (if (2 <? month) && leapyear then 1 else 0) in
    if n <? preceding then
      let month := month - 1 in
      let preceding :=
        preceding - (DAYS_IN_MONTH month + (if (month =? 2) && leapyear then 1 else 0)) in
      (year, month, n - preceding + 1)
    else (year, month, n - preceding + 1).

(** [d + timedelta(days=days)]. *)
Definition date_add_days (d : date) (days : Z) : result date :=
  let o := d + days in
  if (0 <? o) && (o <=? MAXORDINAL) then Ok o else Raise OverflowError.

Record datetime : Type := mk_datetime {
  dt_date : date;
  hour : Z;
  minute : Z;
  second : Z;
  microsecond : Z
}.

(** [datetime.combine(d, datetime.min.time())]. *)
Definition combine_min (d : date) : datetime :=
  mk_datetime d 0 0 0 0.

(** [dt.replace(hour=h, minute=m)]. *)
Definition replace (dt : datetime) (h m : Z) : result datetime :=
  if (0 <=? h) && (h <? 24) && (0 <=? m) && (m <? 60)
  then Ok (mk_datetime (dt_date dt) h m (second dt) (microsecond dt))
  else Raise ValueError.

(** [dt + timedelta(minutes=m)]. *)
Definition add_minutes (dt : datetime) (m : Z) : result datetime :=
  let secs := hour dt * 3600 + minute dt * 60 + second dt + m * 60 in
  let days := dt_date dt + secs / 86400 in
  let secs := secs mod 86400 in
  if (0 <? days) && (days <=? MAXORDINAL)
  then Ok (mk_datetime days (secs / 3600) (secs mod 3600 / 60) (secs mod 60)
             (microsecond dt))
  else Raise OverflowError.

Definition date_isoformat (d : date) : string :=
  let '(y, m, dd) := ord2ymd d in
  Py.zfill 4 y +:+ "-" +:+ Py.zfill 2 m +:+ "-" +:+ Py.zfill 2 dd.

Definition time_isoformat (h m s us : Z) : string :=
  Py.zfill 2 h +:+ ":" +:+ Py.zfill 2 m +:+ ":" +:+ Py.zfill 2 s
    +:+ (if us =? 0 then "" else "." +:+ Py.zfill 6 us).

(** [dt.isoformat()] of a naive datetime. *)
Definition isoformat (dt : datetime) : string :=
  date_isoformat (dt_date dt) +:+ "T"
    +:+ time_isoformat (hour dt) (minute dt) (second dt) (microsecond dt).

End Datetime.

(** ** [bson.ObjectId] *)

#[local] Instance byte_eq_decision : EqDecision byte := byte_eq_dec.

Module Bson.

(** An [ObjectId] wraps the bytes of the identifier. *)
Record ObjectId : Type := mk_oid { binary : list byte }.

#[global] Instance ObjectId_eq_decision : EqDecision ObjectId.
Proof. solve_decision. Defined.

(** [ObjectId(oid)] for a [str]: twenty-four characters that
    [bytes.fromhex] accepts, [InvalidId] otherwise. *)
Definition parse (oid : string) : result ObjectId :=
  if (String.length oid =? 24)%nat then
    match Py.fromhex oid with
    | Some b => Ok (mk_oid b)
    | None => Raise InvalidId
    end
  else Raise InvalidId.

(** [str(oid)]. *)
Definition str (oid : ObjectId) : string := Py.hexlify (binary oid).

End Bson.

Abbreviation ObjectId := Bson.ObjectId.

(** ** Schemas *)

Module OnboardingInput.
Record t : Type := mk {
  goals : list string;
  blocker : string;
  work_hours : option string;
  energy_pattern : option string
}.
End OnboardingInput.

Module ProposedBlock.
Record t : Type := mk {
  title : string;
  start : string;
  end_ : string;
  category : string
}.
End ProposedBlock.

Module OnboardingPlan.
Record t : Type := mk {
  protocol_name : string;
  blocks : list ProposedBlock.t;
  message : string
}.
End OnboardingPlan.

Module TaskCreate.
Record t : Type := mk {
  title : string;
  start : string;
  end_ : string;
  category : string;
  status : string
}.
End TaskCreate.

Module TaskOut.
Record t : Type := mk {
  id : string;
  title : string;
  start : string;
  end_ : string;
  category : string;
  status : string
}.
End TaskOut.

(** ** The document store *)

(** A stored profile.  The fields other than [_id] are those this program
    writes: [level], [xp] and [streak] hold Python ints, [updated_at] a
    timestamp; a field that a document lacks is [None], which is what
    [doc.get(key, default)] tests. *)
Module Profile.
Record t : Type := mk {
  _id : ObjectId;
  level : option Z;
  xp : option Z;
  streak : option Z;
  updated_at : option Z
}.
End Profile.

(** A stored task: the five [TaskCreate] fields hold strings. *)
Module Task.
Record t : Type := mk {
  _id : ObjectId;
  title : option string;
  start : option string;
  end_ : option string;
  category : option string;
  status : option string;
  updated_at : option Z
}.
End Task.

(** Collections keep their documents in natural (insertion) order. *)
Module Collection.
Section Ops.
Context {D : Type}.

(** [find_one(filter)]: the first matching document, if any. *)
Definition find_one (filter : D -> bool) (c : list D) : option D :=
  List.find filter c.

(** [find(filter)]. *)
Definition find (filter : D -> bool) (c : list D) : list D :=
  List.filter filter c.

(** [update_one(filter, {"$set": ...})]: the first matching document is
    updated, the others are left alone. *)
Fixpoint update_one (filter : D -> bool) (set : D -> D) (c : list D) : list D :=
  match c with
  | [] => []
  | d :: c' =>
      if filter d then set d :: c' else d :: update_one filter set c'
  end.

(** [insert_one(doc)]. *)
Definition insert_one (d : D) (c : list D) : list D := (c ++ [d])%list.
End Ops.
End Collection.

(** Modelled from the spec: the module [database] ([db], [create_document],
    [get_documents]) is not part of the sources.  The spec describes a
    generic key-document store with find, insert and update by filter over
    the collections [profile] and [task], which assigns each document an
    opaque unique identifier at creation.  [next_id] is the supply of
    identifiers. *)
Record database : Type := mk_database {
  profile : list Profile.t;
  task : list Task.t;
  next_id : N
}.

Fixpoint big_endian (len : nat) (n : N) : list byte :=
  match len with
  | O => []
  | S len' => (big_endian len' (n / 256) ++ [default x00 (Byte.of_N (n mod 256))])%list
  end.

Definition fresh_id (d : database) : ObjectId :=
  Bson.mk_oid (big_endian 12 (next_id d)).

(** The class of the handle [db] is settled in the module [database],
    which is not part of the sources, and it decides what the truth test
    [bool(db)] does: a [pymongo] database, from version 4.0 on, refuses it
    with [NotImplementedError]; a handle of a class without a truth test of
    its own (a [pymongo] database before 4.0, a [mongomock] one) is true
    like any object. *)
Inductive handle_class : Type :=
  | RefusesBool
  | PlainObject.

(** [bool(db)]: [None] is false. *)
Definition db_bool (cls : handle_class) (db : option database) : result bool :=
  match db with
  | None => Ok false
  | Some _ =>
      match cls with
      | RefusesBool => Raise NotImplementedError
      | PlainObject => Ok true
      end
  end.

(** The two uses of [create_document]: the collection named with the
    document handed over. *)
Inductive new_document : Type :=
  | NewProfile (level xp streak : Z)
  | NewTask (doc : TaskCreate.t).

(** Modelled from the spec: [create_document(collection_name, data)]
    inserts the document under a fresh identifier and returns the
    identifier as text; it fails when the store is not available. *)
Definition create_document (db : option database) (data : new_document)
  : result string * option database :=
  match db with
  | None => (Raise DatabaseNotAvailable, db)
  | Some d =>
      let oid := fresh_id d in
      (Ok (Bson.str oid),
       Some
         match data with
         | NewProfile level xp streak =>
             mk_database
               (Collection.insert_one
                  (Profile.mk oid (Some level) (Some xp) (Some streak) None)
                  (profile d))
               (task d) (N.succ (next_id d))
         | NewTask doc =>
             mk_database (profile d)
               (Collection.insert_one
                  (Task.mk oid (Some (TaskCreate.title doc))
                     (Some (TaskCreate.start doc)) (Some (TaskCreate.end_ doc))
                     (Some (TaskCreate.category doc))
                     (Some (TaskCreate.status doc)) None)
                  (task d))
               (N.succ (next_id d))
         end)
  end.

(** Modelled from the spec: [get_documents("task", filter_q)] returns the
    matching tasks in natural order; [filter_q] is either empty or
    [{"status": s}]. *)
Definition get_documents (db : option database) (filter_q : option string)
  : result (list Task.t) :=
  match db with
  | None => Raise DatabaseNotAvailable
  | Some d =>
      Ok (Collection.find
            (fun r =>
               match filter_q with
               | None => true
               | Some s => bool_decide (Task.status r = Some s)
               end)
            (task d))
  end.

(** ** Routes *)

(** [iso], the helper local to [propose_onboarding]; [today] is the
    variable it captures. *)
Definition iso (today : Datetime.date) (day_offset hour minute duration_min : Z)
  : result (string * string) :=
  let* d := Datetime.date_add_days today day_offset in
  let* start_dt := Datetime.replace (Datetime.combine_min d) hour minute in
  let* end_dt := Datetime.add_minutes start_dt duration_min in
  Ok (Datetime.isoformat start_dt, Datetime.isoformat end_dt).

(** [POST /api/onboarding/propose]; [today] is [datetime.now().date()]. *)
Definition propose_onboarding (today : Datetime.date) (data : OnboardingInput.t)
  : result OnboardingPlan.t :=
  let blocks : list ProposedBlock.t := [] in
  let* blocks :=
    if Py.contains "low" (Py.or_empty (OnboardingInput.energy_pattern data)) then
      let* se := iso today 0 7 0 25 in
      Ok (blocks ++ [ProposedBlock.mk "Python Micro‑Learning" se.1 se.2 "mind"])%list
    else
      let* se := iso today 0 19 0 25 in
      Ok (blocks ++ [ProposedBlock.mk "Python Micro‑Learning" se.1 se.2 "mind"])%list in
  let* se := iso today 0 12 30 40 in
  let blocks := (blocks ++ [ProposedBlock.mk "Zone 2 Run" se.1 se.2 "fitness"])%list in
  let* se := iso today 0 18 0 45 in
  let blocks := (blocks ++ [ProposedBlock.mk "Meal Prep" se.1 se.2 "vitality"])%list in
  let message :=
    "Here is your new Base Protocol. Accept to generate your schedule and start earning XP." in
  Ok (OnboardingPlan.mk "Base Protocol" blocks message).

Module AcceptResponse.
Record t : Type := mk { ok : bool; profile_id : string; created : Z }.
End AcceptResponse.

(** The loop of [accept_onboarding] that inserts the tasks of the plan. *)
Fixpoint insert_tasks (db : option database) (plan : list TaskCreate.t)
    (inserted : list string) : result (list string) * option database :=
  match plan with
  | [] => (Ok inserted, db)
  | t :: plan' =>
      match create_document db (NewTask t) with
      | (Ok inserted_id, db') => insert_tasks db' plan' (inserted ++ [inserted_id])%list
      | (Raise e, db') => (Raise e, db')
      end
  end.

(** [POST /api/onboarding/accept].  The condition [if db] is a truth test
    of the handle, the only one in the file; an exception from it leaves
    the route before anything is read or written. *)
Definition accept_onboarding (cls : handle_class) (db : option database)
    (plan : list TaskCreate.t) : result AcceptResponse.t * option database :=
  match db_bool cls db with
  | Raise e => (Raise e, db)
  | Ok truthy =>
      let profile_doc :=
        if truthy then
          match db with
          | Some d => Collection.find_one (fun _ => true) (profile d)
          | None => None
          end
        else None in
      let '(profile_id, db) :=
        match profile_doc with
        | None => create_document db (NewProfile 1 0 0)
        | Some p => (Ok (Bson.str (Profile._id p)), db)
        end in
      match profile_id with
      | Raise e => (Raise e, db)
      | Ok profile_id =>
          match insert_tasks db plan [] with
          | (Ok inserted, db) =>
              (Ok (AcceptResponse.mk true profile_id (Z.of_nat (List.length inserted))),
               db)
          | (Raise e, db) => (Raise e, db)
          end
      end
  end.

(** [serialize_doc] on a task: [_id] becomes the text [id]; the conversion
    of datetimes rewrites [updated_at] only, which no caller reads, and is
    left out of the record. *)
Module Serialized.
Record t : Type := mk {
  id : string;
  title : option string;
  start : option string;
  end_ : option string;
  category : option string;
  status : option string
}.
End Serialized.

Definition serialize_doc (doc : Task.t) : Serialized.t :=
  Serialized.mk (Bson.str (Task._id doc)) (Task.title doc) (Task.start doc)
    (Task.end_ doc) (Task.category doc) (Task.status doc).

(** [GET /api/tasks]. *)
Definition list_tasks (db : option database) (status : option string)
  : result (list TaskOut.t) :=
  let filter_q :=
    match status with
    | Some s => if Py.truthy s then Some s else None
    | None => None
    end in
  let* rows := get_documents db filter_q in
  let rows := Py.sort (fun r => default "" (Task.start r)) rows in
  Ok (map
        (fun r =>
           let sr := serialize_doc r in
           TaskOut.mk (Serialized.id sr)
             (default "" (Serialized.title sr))
             (default "" (Serialized.start sr))
             (default "" (Serialized.end_ sr))
             (default "misc" (Serialized.category sr))
             (default "scheduled" (Serialized.status sr)))
        rows).

(** The category-to-XP table of [complete_task]. *)
Definition xp_map : gmap string Z :=
  list_to_map
    [("fitness", 20); ("mind", 15); ("vitality", 10); ("wealth", 15); ("charisma", 10)].

(** The loop [while new_xp >= 100: new_level += 1; new_xp -= 100]; the
    result is the pair [(new_xp, new_level)] on exit. *)
Equations? level_up (new_xp new_level : Z) : Z * Z by wf (Z.to_nat new_xp) lt :=
  level_up new_xp new_level with Z_ge_dec new_xp 100 => {
    | left _ := level_up (new_xp - 100) (new_level + 1);
    | right _ := (new_xp, new_level) }.
Proof. lia. Qed.

Module CompleteResponse.
Record t : Type := mk { ok : bool; xp_gain : Z }.
End CompleteResponse.

Definition has_task_id (oid : ObjectId) (t : Task.t) : bool :=
  bool_decide (Task._id t = oid).

Definition has_profile_id (oid : ObjectId) (p : Profile.t) : bool :=
  bool_decide (Profile._id p = oid).

(** [{"$set": {"status": "done", "updated_at": now}}]. *)
Definition set_done (now : Z) (t : Task.t) : Task.t :=
  Task.mk (Task._id t) (Task.title t) (Task.start t) (Task.end_ t)
    (Task.category t) (Some "done") (Some now).

(** [{"$set": {"xp": new_xp, "level": new_level, "updated_at": now}}]. *)
Definition set_xp_level (new_xp new_level now : Z) (p : Profile.t) : Profile.t :=
  Profile.mk (Profile._id p) (Some new_level) (Some new_xp) (Profile.streak p)
    (Some now).

(** [POST /api/tasks/{task_id}/complete].  [now_task] and [now_profile] are
    the two readings of the clock.  A document found by [find_one] carries
    its [_id], so it is truthy. *)
Definition complete_task (db : option database) (now_task now_profile : Z)
    (task_id : string) : result CompleteResponse.t * option database :=
  match db with
  | None => (Raise (HTTPException 500 "Database not available"), db)
  | Some d =>
      match Bson.parse task_id with
      | Raise e => (Raise e, db)
      | Ok oid =>
          match Collection.find_one (has_task_id oid) (task d) with
          | None => (Raise (HTTPException 404 "Task not found"), db)
          | Some t =>
              let d :=
                mk_database (profile d)
                  (Collection.update_one (has_task_id oid) (set_done now_task) (task d))
                  (next_id d) in
              let xp_gain := default 10 (xp_map !! default "" (Task.category t)) in
              let d :=
                match Collection.find_one (fun _ => true) (profile d) with
                | Some p =>
                    let new_xp := default 0 (Profile.xp p) + xp_gain in
                    let new_level := default 1 (Profile.level p) in
                    let '(new_xp, new_level) := level_up new_xp new_level in
                    mk_database
                      (Collection.update_one (has_profile_id (Profile._id p))
                         (set_xp_level new_xp new_level now_profile) (profile d))
                      (task d) (next_id d)
                | None => d
                end in
              (Ok (CompleteResponse.mk true xp_gain), Some d)
          end
      end
  end.

(** [serialize_doc] on a profile: as for a task, [_id] becomes the text
    [id] and the conversion of datetimes rewrites [updated_at] only. *)
Module SerializedProfile.
Record t : Type := mk {
  id : string;
  level : option Z;
  xp : option Z;
  streak : option Z
}.
End SerializedProfile.

Definition serialize_profile_doc (doc : Profile.t) : SerializedProfile.t :=
  SerializedProfile.mk (Bson.str (Profile._id doc)) (Profile.level doc)
    (Profile.xp doc) (Profile.streak doc).

Module ProfileResponse.
Record t : Type := mk { level : Z; xp : Z; streak : Z }.
End ProfileResponse.

(** [GET /api/profile]. *)
Definition get_profile (db : option database) : result ProfileResponse.t :=
  match db with
  | None => Raise (HTTPException 500 "Database not available")
  | Some d =>
      match Collection.find_one (fun _ => true) (profile d) with
      | None => Ok (ProfileResponse.mk 1 0 0)
      | Some doc =>
          let p := serialize_profile_doc doc in
          Ok (ProfileResponse.mk
                (default 1 (SerializedProfile.level p))
                (default 0 (SerializedProfile.xp p))
                (default 0 (SerializedProfile.streak p)))
      end
  end.

(** [GET /]. *)
Definition read_root : string := "RISE API running".

(** ** Vocabulary of the statements *)

(** The gain [complete_task] looks up for a task:
    [xp_map.get(task.get("category", ""), 10)]. *)
Definition xp_gain_of (t : Task.t) : Z :=
  default 10 (xp_map !! default "" (Task.category t)).

(** The profile that [complete_task] writes back over [p] for a gain. *)
Definition awarded (gain now : Z) (p : Profile.t) : Profile.t :=
  let '(new_xp, new_level) :=
    level_up (default 0 (Profile.xp p) + gain) (default 1 (Profile.level p)) in
  set_xp_level new_xp new_level now p.

(** The XP a profile has earned in all: a level is worth 100. *)
Definition total_xp (p : Profile.t) : Z :=
  100 * default 1 (Profile.level p) + default 0 (Profile.xp p).

(** The invariant of a stored profile. *)
Definition profile_ok (p : Profile.t) : Prop :=
  0 <= default 0 (Profile.xp p) < 100 /\ 1 <= default 1 (Profile.level p).

(** The requests that write to the store, and the store after a run of
    them. *)
Inductive request : Type :=
  | Accept (plan : list TaskCreate.t)
  | Complete (now_task now_profile : Z) (task_id : string).

Definition step (cls : handle_class) (db : option database) (r : request)
  : option database :=
  match r with
  | Accept plan => (accept_onboarding cls db plan).2
  | Complete now_task now_profile task_id =>
      (complete_task db now_task now_profile task_id).2
  end.

Definition run (cls : handle_class) (db : option database) (rs : list request)
  : option database :=
  fold_left (step cls) rs db.

(** The singleton profile, as every route reads it: [find_one({})]. *)
Definition the_profile (db : option database) : option Profile.t :=
  match db with
  | Some d => Collection.find_one (fun _ => true) (profile d)
  | None => None
  end.

(** [needle] occurs in [hay]. *)
Definition substring_of (needle hay : string) : Prop :=
  exists pre post : string, hay = pre +:+ needle +:+ post.

(** The plan [propose_onboarding] answers on day [today]; [morning] tells
    where the learning block goes. *)
Definition base_protocol (today : Datetime.date) (morning : bool) : OnboardingPlan.t :=
  let day := Datetime.date_isoformat today in
  OnboardingPlan.mk "Base Protocol"
    [ ProposedBlock.mk "Python Micro‑Learning"
        (day +:+ (if morning then "T07:00:00" else "T19:00:00"))
        (day +:+ (if morning then "T07:25:00" else "T19:25:00")) "mind";
      ProposedBlock.mk "Zone 2 Run" (day +:+ "T12:30:00") (day +:+ "T13:10:00") "fitness";
      ProposedBlock.mk "Meal Prep" (day +:+ "T18:00:00") (day +:+ "T18:45:00") "vitality" ]
    "Here is your new Base Protocol. Accept to generate your schedule and start earning XP.".

(** Order of [str]. *)
Definition str_le (a b : string) : Prop := String.leb a b = true.

(** The response row of [list_tasks] for a stored task. *)
Definition task_out (r : Task.t) : TaskOut.t :=
  TaskOut.mk (Bson.str (Task._id r)) (default "" (Task.title r))
    (default "" (Task.start r)) (default "" (Task.end_ r))
    (default "misc" (Task.category r)) (default "scheduled" (Task.status r)).

(** The tasks a status filter of [list_tasks] retains. *)
Definition selected (status : option string) (r : Task.t) : bool :=
  match status with
  | Some (String c s) => bool_decide (Task.status r = Some (String c s))
  | _ => true
  end.

(** Minutes elapsed at a datetime since the start of day 0. *)
Definition minute_of_era (dt : Datetime.datetime) : Z :=
  Datetime.dt_date dt * 1440 + Datetime.hour dt * 60 + Datetime.minute dt.

(** Identifiers as the store hands them out: twelve bytes. *)
Definition twelve_bytes (oid : ObjectId) : Prop :=
  List.length (Bson.binary oid) = 12%nat.

(** The columns of a listed task that a creation record sets. *)
Definition as_create (o : TaskOut.t) : TaskCreate.t :=
  TaskCreate.mk (TaskOut.title o) (TaskOut.start o) (TaskOut.end_ o)
    (TaskOut.category o) (TaskOut.status o).

(** A stored task holds exactly what a creation record says. *)
Definition stores (c : TaskCreate.t) (t : Task.t) : Prop :=
  Task.title t = Some (TaskCreate.title c) /\
  Task.start t = Some (TaskCreate.start c) /\
  Task.end_ t = Some (TaskCreate.end_ c) /\
  Task.category t = Some (TaskCreate.category c) /\
  Task.status t = Some (TaskCreate.status c) /\
  Task.updated_at t = None.

(** Two listed rows that differ at most in that the second is done. *)
Definition same_but_done (o o' : TaskOut.t) : Prop :=
  TaskOut.id o' = TaskOut.id o /\ TaskOut.title o' = TaskOut.title o /\
  TaskOut.start o' = TaskOut.start o /\ TaskOut.end_ o' = TaskOut.end_ o /\
  TaskOut.category o' = TaskOut.category o /\
  (TaskOut.status o' = TaskOut.status o \/ TaskOut.status o' = "done").

(** ** A small store to run the routes on *)

Definition oid0 : ObjectId :=
  Bson.mk_oid [x00; x00; x00; x00; x00; x00; x00; x00; x00; x00; x00; x00].

Definition oid1 : ObjectId :=
  Bson.mk_oid [x00; x00; x00; x00; x00; x00; x00; x00; x00; x00; x00; x01].

Definition id1 : string := "000000000000000000000001".

Definition sample_profile (xp level : Z) : Profile.t :=
  Profile.mk oid0 (Some level) (Some xp) (Some 0) None.

Definition sample_task (category : option string) (status : string) : Task.t :=
  Task.mk oid1 (Some "Zone 2 Run") (Some "2024-01-01T12:30:00")
    (Some "2024-01-01T13:10:00") category (Some status) None.

Definition sample_db (category : option string) (status : string) (xp level : Z)
  : database :=
  mk_database [sample_profile xp level] [sample_task category status] 2.

(** * Properties *)

(** ** The level-up loop *)

Lemma level_up_below new_xp new_level :
  new_xp < 100 -> level_up new_xp new_level = (new_xp, new_level).
Proof.
  intros H. rewrite level_up_equation_1.
  destruct (Z_ge_dec new_xp 100); [lia | reflexivity].
Qed.

Lemma level_up_step new_xp new_level :
  100 <= new_xp ->
  level_up new_xp new_level = level_up (new_xp - 100) (new_level + 1).
Proof.
  intros H. rewrite level_up_equation_1.
  destruct (Z_ge_dec new_xp 100); [reflexivity | lia].
Qed.

(** On exit the guard is false, the level has not gone down, no XP was lost
    or made, and XP that was not negative stays so. *)
Lemma level_up_spec new_xp new_level :
  (level_up new_xp new_level).1 < 100 /\
  new_level <= (level_up new_xp new_level).2 /\
  100 * (level_up new_xp new_level).2 + (level_up new_xp new_level).1
    = 100 * new_level + new_xp /\
  (0 <= new_xp -> 0 <= (level_up new_xp new_level).1).
Proof.
  funelim (level_up new_xp new_level).
  - destruct H as (H1 & H2 & H3 & H4). repeat split; lia.
  - simpl. repeat split; lia.
Qed.

(** The loop in closed form. *)
Lemma level_up_closed new_xp new_level :
  level_up new_xp new_level =
  if new_xp <? 100 then (new_xp, new_level)
  else (new_xp mod 100, new_level + new_xp / 100).
Proof.
  funelim (level_up new_xp new_level).
  - rewrite H. clear H Heqcall Heq.
    destruct (Z.ltb_spec (new_xp - 100) 100), (Z.ltb_spec new_xp 100);
      try lia; f_equal; Z.to_euclidean_division_equations; lia.
  - destruct (Z.ltb_spec new_xp 100); [reflexivity | lia].
Qed.

(** ** The XP table *)

(** A closed string is none of the listed ones. *)
Ltac not_listed :=
  rewrite !not_elem_of_cons; repeat split; try discriminate; apply not_elem_of_nil.

Lemma xp_map_unknown (c : string) :
  c ∉ ["mind"; "fitness"; "vitality"; "wealth"; "charisma"] ->
  xp_map !! c = None.
Proof.
  rewrite !not_elem_of_cons. intros (H1 & H2 & H3 & H4 & H5 & _).
  unfold xp_map. simpl.
  rewrite !lookup_insert_ne by congruence.
  apply lookup_empty.
Qed.

Lemma xp_gain_of_bounds (t : Task.t) : 10 <= xp_gain_of t <= 20.
Proof.
  unfold xp_gain_of, xp_map. simpl.
  repeat (rewrite lookup_insert; case_decide; [simpl; lia |]).
  rewrite lookup_empty. simpl. lia.
Qed.

(** ** The collections *)

Lemma find_one_first {D : Type} (c : list D) :
  Collection.find_one (fun _ => true) c = head c.
Proof. destruct c; reflexivity. Qed.

Lemma update_one_first {D : Type} (f : D -> bool) (set : D -> D) (p : D) (c : list D) :
  f p = true -> Collection.update_one f set (p :: c) = set p :: c.
Proof. intros H. simpl. rewrite H. reflexivity. Qed.

Lemma find_one_update_one (oid : ObjectId) (set : Task.t -> Task.t) (c : list Task.t) (t : Task.t) :
  (forall x, Task._id (set x) = Task._id x) ->
  Collection.find_one (has_task_id oid) c = Some t ->
  Collection.find_one (has_task_id oid)
    (Collection.update_one (has_task_id oid) set c) = Some (set t).
Proof.
  intros Hid. unfold Collection.find_one.
  induction c as [| x c IH]; simpl; [discriminate |].
  destruct (has_task_id oid x) eqn:Hx; intros H.
  - injection H as <-. simpl.
    unfold has_task_id in *. rewrite Hid, Hx. reflexivity.
  - simpl. rewrite Hx. auto.
Qed.

Lemma find_one_absent (oid : ObjectId) (c : list Task.t) :
  (forall t, In t c -> Task._id t <> oid) ->
  Collection.find_one (has_task_id oid) c = None.
Proof.
  intros H. unfold Collection.find_one.
  destruct (List.find (has_task_id oid) c) as [t |] eqn:E; [| reflexivity].
  apply find_some in E as [Hin Ht].
  unfold has_task_id in Ht. apply bool_decide_eq_true in Ht.
  destruct (H t Hin Ht).
Qed.

(** Every task of an accepted plan is inserted, in order. *)
Lemma insert_tasks_ok (d : database) (plan : list TaskCreate.t) (inserted : list string) :
  exists (ids : list string) (d' : database),
    insert_tasks (Some d) plan inserted = (Ok (inserted ++ ids)%list, Some d') /\
    List.length ids = List.length plan /\
    profile d' = profile d /\
    List.length (task d') = (List.length (task d) + List.length plan)%nat.
Proof.
  revert d inserted. induction plan as [| t plan IH]; intros d inserted; simpl.
  - exists [], d. rewrite app_nil_r. repeat split. lia.
  - destruct (IH (mk_database (profile d)
                    (Collection.insert_one
                       (Task.mk (fresh_id d) (Some (TaskCreate.title t))
                          (Some (TaskCreate.start t)) (Some (TaskCreate.end_ t))
                          (Some (TaskCreate.category t)) (Some (TaskCreate.status t))
                          None) (task d))
                    (N.succ (next_id d)))
                (inserted ++ [Bson.str (fresh_id d)])%list)
      as (ids & d' & Hrun & Hlen & Hprofile & Htasks).
    exists (Bson.str (fresh_id d) :: ids), d'.
    rewrite Hrun, <- app_assoc. simpl in *.
    unfold Collection.insert_one in Htasks. rewrite length_app in Htasks. simpl in Htasks.
    repeat split; [congruence | assumption | lia].
Qed.

(** ** Task completion, step by step *)

(** What [complete_task] answers and stores once the task is found. *)
Lemma complete_task_found (d : database) (now_task now_profile : Z)
    (task_id : string) (oid : ObjectId) (t : Task.t) :
  Bson.parse task_id = Ok oid ->
  Collection.find_one (has_task_id oid) (task d) = Some t ->
  complete_task (Some d) now_task now_profile task_id =
    (Ok (CompleteResponse.mk true (xp_gain_of t)),
     Some (mk_database
             match profile d with
             | [] => []
             | p :: c => awarded (xp_gain_of t) now_profile p :: c
             end
             (Collection.update_one (has_task_id oid) (set_done now_task) (task d))
             (next_id d))).
Proof.
  intros Hparse Hfind. unfold complete_task. rewrite Hparse, Hfind. simpl.
  destruct (profile d) as [| p c]; simpl; [reflexivity |].
  unfold awarded.
  destruct (level_up _ _) as [new_xp new_level].
  unfold has_profile_id at 1. rewrite bool_decide_eq_true_2 by reflexivity.
  reflexivity.
Qed.


(** ** The schedule proposer *)

Lemma append_cons (c : ascii) (s t : string) : String c s +:+ t = String c (s +:+ t).
Proof. reflexivity. Qed.

Lemma append_empty (t : string) : "" +:+ t = t.
Proof. reflexivity. Qed.

Lemma prefix_spec (needle hay : string) :
  String.prefix needle hay = true <-> exists post, hay = needle +:+ post.
Proof.
  revert hay. induction needle as [| c needle IH]; intros hay.
  - destruct hay; simpl; split; eauto.
  - destruct hay as [| c' hay]; simpl.
    + split; [discriminate | intros [post H]; discriminate H].
    + destruct (ascii_dec c c') as [<- | Hne].
      * rewrite IH. split; intros [post H]; exists post;
          rewrite append_cons in *; congruence.
      * split; [discriminate | intros [post H]; rewrite append_cons in H; congruence].
Qed.

Lemma contains_unfold (needle hay : string) :
  Py.contains needle hay =
  String.prefix needle hay ||
  match hay with
  | EmptyString => false
  | String _ rest => Py.contains needle rest
  end.
Proof. destruct hay; reflexivity. Qed.

(** [Py.contains] decides the occurrence of a substring. *)
Lemma contains_spec (needle hay : string) :
  Py.contains needle hay = true <-> substring_of needle hay.
Proof.
  unfold substring_of. split.
  - induction hay as [| c hay IH];
      rewrite contains_unfold, orb_true_iff, prefix_spec.
    + intros [[post H] | H]; [exists "", post; exact H | discriminate H].
    + intros [[post H] | H]; [exists "", post; exact H |].
      destruct (IH H) as (pre & post & ->). exists (String c pre), post. reflexivity.
  - intros (pre & post & ->). induction pre as [| c pre IH].
    + rewrite append_empty, contains_unfold, orb_true_iff. left.
      apply prefix_spec. eauto.
    + rewrite append_cons, contains_unfold, IH. apply orb_true_r.
Qed.

Lemma or_empty_default (s : option string) : Py.or_empty s = default "" s.
Proof. destruct s as [[| c s] |]; reflexivity. Qed.

(** A block that starts at [hour]:[minute] today and ends before midnight:
    both ends are on today's date, [duration_min] minutes apart. *)
Lemma iso_within_today (today : Datetime.date) (hour minute duration_min : Z) :
  Datetime.valid_date today ->
  0 <= hour < 24 -> 0 <= minute < 60 ->
  0 <= hour * 60 + minute + duration_min < 1440 ->
  iso today 0 hour minute duration_min =
    Ok (Datetime.date_isoformat today +:+ "T"
          +:+ Datetime.time_isoformat hour minute 0 0,
        Datetime.date_isoformat today +:+ "T"
          +:+ Datetime.time_isoformat
                ((hour * 60 + minute + duration_min) / 60)
                ((hour * 60 + minute + duration_min) mod 60) 0 0).
Proof.
  unfold Datetime.valid_date, Datetime.MAXORDINAL. intros Hd Hh Hm Hend.
  assert (Hrange : (0 <? today) && (today <=? Datetime.MAXORDINAL) = true).
  { unfold Datetime.MAXORDINAL.
    apply andb_true_intro. split; [apply Z.ltb_lt | apply Z.leb_le]; lia. }
  unfold iso, Datetime.date_add_days. rewrite Z.add_0_r, Hrange. simpl bind.
  unfold Datetime.replace, Datetime.combine_min.
  replace ((0 <=? hour) && (hour <? 24) && (0 <=? minute) && (minute <? 60)) with true
    by (symmetry; rewrite !andb_true_iff, !Z.leb_le, !Z.ltb_lt; lia).
  simpl bind. unfold Datetime.add_minutes. simpl Datetime.dt_date.
  simpl Datetime.hour. simpl Datetime.minute. simpl Datetime.second.
  simpl Datetime.microsecond.
  set (secs := hour * 3600 + minute * 60 + 0 + duration_min * 60).
  assert (Hsecs : secs = (hour * 60 + minute + duration_min) * 60) by (unfold secs; lia).
  assert (Hday : secs / 86400 = 0) by (apply Z.div_small; lia).
  assert (Hmod : secs mod 86400 = secs) by (apply Z.mod_small; lia).
  rewrite Hday, Hmod, Z.add_0_r, Hrange. simpl bind.
  unfold Datetime.isoformat. simpl Datetime.dt_date.
  simpl Datetime.hour. simpl Datetime.minute. simpl Datetime.second.
  simpl Datetime.microsecond.
  replace (secs / 3600) with ((hour * 60 + minute + duration_min) / 60)
    by (rewrite Hsecs; Z.to_euclidean_division_equations; lia).
  replace (secs mod 3600 / 60) with ((hour * 60 + minute + duration_min) mod 60)
    by (rewrite Hsecs; Z.to_euclidean_division_equations; lia).
  replace (secs mod 60) with 0
    by (rewrite Hsecs; Z.to_euclidean_division_equations; lia).
  reflexivity.
Qed.

(** C2. On a valid date, [propose_onboarding] answers three blocks in this
    order: 25 minutes of category mind from 07:00 when the energy pattern
    contains "low" and from 19:00 when it does not, 40 minutes of fitness
    from 12:30 and 45 minutes of vitality from 18:00, whatever the input. *)
Theorem propose_onboarding_blocks (today : Datetime.date) (data : OnboardingInput.t) :
  Datetime.valid_date today ->
  exists morning : bool,
    (morning = true <->
     substring_of "low" (default "" (OnboardingInput.energy_pattern data))) /\
    propose_onboarding today data = Ok (base_protocol today morning).
Proof.
  intros Hd.
  exists (Py.contains "low" (Py.or_empty (OnboardingInput.energy_pattern data))).
  split; [rewrite contains_spec, or_empty_default; reflexivity |].
  unfold propose_onboarding.
  rewrite (iso_within_today today 12 30 40), (iso_within_today today 18 0 45)
    by (assumption || lia).
  destruct (Py.contains _ _).
  - rewrite (iso_within_today today 7 0 25) by (assumption || lia). reflexivity.
  - rewrite (iso_within_today today 19 0 25) by (assumption || lia). reflexivity.
Qed.

Lemma propose_onboarding_blocks_witness :
  exists morning : bool,
    (morning = true <->
     substring_of "low"
       (default "" (OnboardingInput.energy_pattern
                      (OnboardingInput.mk ["Learn Python"] "time" (Some "9-6")
                         (Some "low-evening"))))) /\
    propose_onboarding 738886
      (OnboardingInput.mk ["Learn Python"] "time" (Some "9-6") (Some "low-evening"))
      = Ok (base_protocol 738886 morning).
Proof.
  apply (propose_onboarding_blocks 738886
           (OnboardingInput.mk ["Learn Python"] "time" (Some "9-6") (Some "low-evening"))).
  unfold Datetime.valid_date, Datetime.MAXORDINAL. lia.
Defined.

Example propose_onboarding_low_evening :
  propose_onboarding 738886
    (OnboardingInput.mk ["Learn Python"] "time" (Some "9-6") (Some "low-evening"))
  = Ok (OnboardingPlan.mk "Base Protocol"
          [ ProposedBlock.mk "Python Micro‑Learning"
              "2024-01-01T07:00:00" "2024-01-01T07:25:00" "mind";
            ProposedBlock.mk "Zone 2 Run"
              "2024-01-01T12:30:00" "2024-01-01T13:10:00" "fitness";
            ProposedBlock.mk "Meal Prep"
              "2024-01-01T18:00:00" "2024-01-01T18:45:00" "vitality" ]
          "Here is your new Base Protocol. Accept to generate your schedule and start earning XP.").
Proof. reflexivity. Qed.

Example propose_onboarding_capital_low :
  (let* plan := propose_onboarding 738886
      (OnboardingInput.mk ["Learn Python"] "time" None (Some "Low-evening")) in
   Ok (map ProposedBlock.start (OnboardingPlan.blocks plan)))
  = Ok ["2024-01-01T19:00:00"; "2024-01-01T12:30:00"; "2024-01-01T18:00:00"].
Proof. reflexivity. Qed.

(** C9. The plan depends on the date and on the energy pattern only: two
    inputs with the same energy pattern get the same plan on the same day,
    however their goals, blocker and work hours differ. *)
Theorem propose_onboarding_energy_pattern_only (today : Datetime.date)
    (data1 data2 : OnboardingInput.t) :
  OnboardingInput.energy_pattern data1 = OnboardingInput.energy_pattern data2 ->
  propose_onboarding today data1 = propose_onboarding today data2.
Proof.
  intros H. unfold propose_onboarding. rewrite H. reflexivity.
Qed.

Lemma propose_onboarding_energy_pattern_only_witness :
  propose_onboarding 738886
    (OnboardingInput.mk ["Learn Python"] "time" (Some "9-6") (Some "morning-person"))
  = propose_onboarding 738886
      (OnboardingInput.mk ["Run"; "Sleep"] "motivation" None (Some "morning-person")).
Proof.
  apply (propose_onboarding_energy_pattern_only 738886
           (OnboardingInput.mk ["Learn Python"] "time" (Some "9-6") (Some "morning-person"))
           (OnboardingInput.mk ["Run"; "Sleep"] "motivation" None (Some "morning-person"))).
  reflexivity.
Defined.

(** ** The XP engine *)

(** C1. An award performed by [complete_task] on a stored profile with
    [0 <= xp < 100] and [level >= 1] persists a profile with
    [0 <= xp < 100] and [level >= 1], whose level is not below the level
    before the award. *)
Theorem complete_task_xp_invariant (d : database) (now_task now_profile : Z)
    (task_id : string) (oid : ObjectId) (t : Task.t) (p : Profile.t) :
  Bson.parse task_id = Ok oid ->
  Collection.find_one (has_task_id oid) (task d) = Some t ->
  Collection.find_one (fun _ => true) (profile d) = Some p ->
  0 <= default 0 (Profile.xp p) < 100 ->
  1 <= default 1 (Profile.level p) ->
  exists (d' : database) (p' : Profile.t) (new_xp new_level : Z),
    complete_task (Some d) now_task now_profile task_id =
      (Ok (CompleteResponse.mk true (xp_gain_of t)), Some d') /\
    Collection.find_one (fun _ => true) (profile d') = Some p' /\
    Profile.xp p' = Some new_xp /\ Profile.level p' = Some new_level /\
    0 <= new_xp < 100 /\ 1 <= new_level /\
    default 1 (Profile.level p) <= new_level.
Proof.
  intros Hparse Hfind Hprofile Hxp Hlevel.
  rewrite (complete_task_found d now_task now_profile task_id oid t Hparse Hfind).
  rewrite find_one_first in Hprofile.
  destruct (profile d) as [| p0 c]; simpl in Hprofile; [discriminate |].
  injection Hprofile as ->.
  pose proof (xp_gain_of_bounds t) as Hgain.
  pose proof (level_up_spec (default 0 (Profile.xp p) + xp_gain_of t)
                (default 1 (Profile.level p))) as (H1 & H2 & _ & H4).
  eexists _, (awarded (xp_gain_of t) now_profile p),
    (level_up (default 0 (Profile.xp p) + xp_gain_of t) (default 1 (Profile.level p))).1,
    (level_up (default 0 (Profile.xp p) + xp_gain_of t) (default 1 (Profile.level p))).2.
  split; [reflexivity |]. split; [reflexivity |].
  unfold awarded.
  destruct (level_up _ _) as [new_xp new_level]. simpl in *.
  split; [reflexivity |]. split; [reflexivity |]. lia.
Qed.

Lemma complete_task_xp_invariant_witness :
  exists (d' : database) (p' : Profile.t) (new_xp new_level : Z),
    complete_task (Some (sample_db (Some "mind") "scheduled" 95 1)) 5 6 id1 =
      (Ok (CompleteResponse.mk true
             (xp_gain_of (sample_task (Some "mind") "scheduled"))), Some d') /\
    Collection.find_one (fun _ => true) (profile d') = Some p' /\
    Profile.xp p' = Some new_xp /\ Profile.level p' = Some new_level /\
    0 <= new_xp < 100 /\ 1 <= new_level /\
    default 1 (Profile.level (sample_profile 95 1)) <= new_level.
Proof.
  apply (complete_task_xp_invariant (sample_db (Some "mind") "scheduled" 95 1)
           5 6 id1 oid1 (sample_task (Some "mind") "scheduled")
           (sample_profile 95 1));
    [reflexivity | reflexivity | reflexivity | simpl; lia | simpl; lia].
Defined.

(** C3. Completing a fitness task when the stored profile has [xp = 90] and
    [level = 3] answers [xp_gain = 20] and persists [xp = 10], [level = 4]. *)
Theorem complete_fitness_from_90_3 (d : database) (now_task now_profile : Z)
    (task_id : string) (oid : ObjectId) (t : Task.t) (p : Profile.t) :
  Bson.parse task_id = Ok oid ->
  Collection.find_one (has_task_id oid) (task d) = Some t ->
  Task.category t = Some "fitness" ->
  Collection.find_one (fun _ => true) (profile d) = Some p ->
  Profile.xp p = Some 90 ->
  Profile.level p = Some 3 ->
  exists (d' : database) (p' : Profile.t),
    complete_task (Some d) now_task now_profile task_id =
      (Ok (CompleteResponse.mk true 20), Some d') /\
    Collection.find_one (fun _ => true) (profile d') = Some p' /\
    Profile.xp p' = Some 10 /\ Profile.level p' = Some 4.
Proof.
  intros Hparse Hfind Hcat Hprofile Hxp Hlevel.
  rewrite (complete_task_found d now_task now_profile task_id oid t Hparse Hfind).
  rewrite find_one_first in Hprofile.
  destruct (profile d) as [| p0 c]; simpl in Hprofile; [discriminate |].
  injection Hprofile as ->.
  assert (Hgain : xp_gain_of t = 20) by (unfold xp_gain_of; rewrite Hcat; reflexivity).
  rewrite Hgain.
  eexists _, (awarded 20 now_profile p).
  split; [reflexivity |]. split; [reflexivity |].
  unfold awarded. rewrite Hxp, Hlevel. simpl.
  rewrite level_up_step, level_up_below by lia.
  split; reflexivity.
Qed.

Lemma complete_fitness_from_90_3_witness :
  exists (d' : database) (p' : Profile.t),
    complete_task (Some (sample_db (Some "fitness") "scheduled" 90 3)) 5 6 id1 =
      (Ok (CompleteResponse.mk true 20), Some d') /\
    Collection.find_one (fun _ => true) (profile d') = Some p' /\
    Profile.xp p' = Some 10 /\ Profile.level p' = Some 4.
Proof.
  apply (complete_fitness_from_90_3 (sample_db (Some "fitness") "scheduled" 90 3)
           5 6 id1 oid1 (sample_task (Some "fitness") "scheduled")
           (sample_profile 90 3));
    reflexivity.
Defined.

Lemma total_xp_awarded (gain now : Z) (p : Profile.t) :
  total_xp (awarded gain now p) = total_xp p + gain.
Proof.
  unfold total_xp, awarded.
  pose proof (level_up_spec (default 0 (Profile.xp p) + gain)
                (default 1 (Profile.level p))) as (_ & _ & H & _).
  destruct (level_up _ _) as [new_xp new_level]. simpl in *. lia.
Qed.

Lemma xp_gain_of_set_done (now : Z) (t : Task.t) :
  xp_gain_of (set_done now t) = xp_gain_of t.
Proof. reflexivity. Qed.

(** C4. Completing a task that is already done succeeds again, runs the
    award as for any other task and grants the gain of the category to the
    profile once more. *)
Theorem complete_done_task_awards_again (d : database) (now_task now_profile : Z)
    (task_id : string) (oid : ObjectId) (t : Task.t) (p : Profile.t) :
  Bson.parse task_id = Ok oid ->
  Collection.find_one (has_task_id oid) (task d) = Some t ->
  Task.status t = Some "done" ->
  Collection.find_one (fun _ => true) (profile d) = Some p ->
  exists d' : database,
    complete_task (Some d) now_task now_profile task_id =
      (Ok (CompleteResponse.mk true (xp_gain_of t)), Some d') /\
    Collection.find_one (fun _ => true) (profile d') =
      Some (awarded (xp_gain_of t) now_profile p) /\
    total_xp (awarded (xp_gain_of t) now_profile p) = total_xp p + xp_gain_of t /\
    0 < xp_gain_of t.
Proof.
  intros Hparse Hfind _ Hprofile.
  rewrite (complete_task_found d now_task now_profile task_id oid t Hparse Hfind).
  rewrite find_one_first in Hprofile.
  destruct (profile d) as [| p0 c]; simpl in Hprofile; [discriminate |].
  injection Hprofile as ->.
  eexists. split; [reflexivity |]. split; [reflexivity |].
  split; [apply total_xp_awarded |].
  pose proof (xp_gain_of_bounds t). lia.
Qed.

Lemma complete_done_task_awards_again_witness :
  exists d' : database,
    complete_task (Some (sample_db (Some "wealth") "done" 40 2)) 5 6 id1 =
      (Ok (CompleteResponse.mk true (xp_gain_of (sample_task (Some "wealth") "done"))),
       Some d') /\
    Collection.find_one (fun _ => true) (profile d') =
      Some (awarded (xp_gain_of (sample_task (Some "wealth") "done")) 6
              (sample_profile 40 2)) /\
    total_xp (awarded (xp_gain_of (sample_task (Some "wealth") "done")) 6
                (sample_profile 40 2))
      = total_xp (sample_profile 40 2) + xp_gain_of (sample_task (Some "wealth") "done") /\
    0 < xp_gain_of (sample_task (Some "wealth") "done").
Proof.
  apply (complete_done_task_awards_again (sample_db (Some "wealth") "done" 40 2)
           5 6 id1 oid1 (sample_task (Some "wealth") "done") (sample_profile 40 2));
    reflexivity.
Defined.

(** Two completions in a row of the same task both succeed, and the profile
    earns the gain twice. *)
Lemma complete_task_twice (d : database) (n1 n2 n3 n4 : Z)
    (task_id : string) (oid : ObjectId) (t : Task.t) (p : Profile.t) :
  Bson.parse task_id = Ok oid ->
  Collection.find_one (has_task_id oid) (task d) = Some t ->
  Collection.find_one (fun _ => true) (profile d) = Some p ->
  exists (d1 d2 : database) (p2 : Profile.t),
    complete_task (Some d) n1 n2 task_id =
      (Ok (CompleteResponse.mk true (xp_gain_of t)), Some d1) /\
    complete_task (Some d1) n3 n4 task_id =
      (Ok (CompleteResponse.mk true (xp_gain_of t)), Some d2) /\
    Collection.find_one (fun _ => true) (profile d2) = Some p2 /\
    total_xp p2 = total_xp p + 2 * xp_gain_of t.
Proof.
  intros Hparse Hfind Hprofile.
  rewrite (complete_task_found d n1 n2 task_id oid t Hparse Hfind).
  rewrite find_one_first in Hprofile.
  destruct (profile d) as [| p0 c]; simpl in Hprofile; [discriminate |].
  injection Hprofile as ->.
  eexists _, _, _. split; [reflexivity |].
  erewrite complete_task_found; [| exact Hparse |].
  2:{ simpl. apply find_one_update_one; [reflexivity | exact Hfind]. }
  rewrite xp_gain_of_set_done. simpl.
  split; [reflexivity |]. split; [reflexivity |].
  rewrite !total_xp_awarded. lia.
Qed.

(** *** The invariant over the lifetime of the profile *)

Lemma awarded_ok (gain now : Z) (p : Profile.t) :
  0 <= gain -> profile_ok p ->
  profile_ok (awarded gain now p) /\
  default 1 (Profile.level p) <= default 1 (Profile.level (awarded gain now p)).
Proof.
  unfold profile_ok, awarded. intros Hgain [Hxp Hlevel].
  pose proof (level_up_spec (default 0 (Profile.xp p) + gain)
                (default 1 (Profile.level p))) as (H1 & H2 & _ & H4).
  destruct (level_up _ _) as [new_xp new_level]. simpl in *. lia.
Qed.

(** One request keeps the invariant of the profile and does not lower its
    level; a request that finds no profile leaves none or creates the
    initial one. *)
Lemma step_profile (cls : handle_class) (db : option database) (r : request) :
  match the_profile db with
  | Some p =>
      profile_ok p ->
      exists p', the_profile (step cls db r) = Some p' /\ profile_ok p' /\
        default 1 (Profile.level p) <= default 1 (Profile.level p')
  | None =>
      match the_profile (step cls db r) with
      | Some p' => profile_ok p'
      | None => True
      end
  end.
Proof.
  destruct db as [d |]; simpl.
  2:{ destruct r; simpl; exact I. }
  rewrite find_one_first. destruct r as [plan | now_task now_profile task_id]; simpl.
  - unfold accept_onboarding. destruct cls; simpl db_bool; cbv iota.
    { simpl. rewrite find_one_first. destruct (profile d); simpl; eauto.
      intros Hok. eexists. repeat split; try apply Hok. lia. }
    rewrite find_one_first.
    destruct d as [[| p c] tasks next]; simpl.
    + destruct (insert_tasks_ok
                  (mk_database
                     [Profile.mk (fresh_id (mk_database [] tasks next))
                        (Some 1) (Some 0) (Some 0) None]
                     tasks (N.succ next)) plan [])
        as (ids & d' & Hrun & _ & Hprofile & _).
      unfold Collection.insert_one. simpl. rewrite Hrun. simpl.
      rewrite find_one_first, Hprofile. simpl.
      unfold profile_ok. simpl. lia.
    + intros Hok.
      destruct (insert_tasks_ok (mk_database (p :: c) tasks next) plan [])
        as (ids & d' & Hrun & _ & Hprofile & _).
      rewrite Hrun. simpl. rewrite find_one_first, Hprofile. simpl.
      exists p. repeat split; try apply Hok. lia.
  - unfold complete_task.
    destruct (Bson.parse task_id) as [oid | e]; simpl.
    2:{ rewrite find_one_first. destruct (profile d); simpl; eauto.
        intros Hok. eexists. repeat split; try apply Hok. lia. }
    destruct (Collection.find_one (has_task_id oid) (task d)) as [t |] eqn:Hfind; simpl.
    2:{ rewrite find_one_first. destruct (profile d); simpl; eauto.
        intros Hok. eexists. repeat split; try apply Hok. lia. }
    rewrite find_one_first. destruct (profile d) as [| p c]; simpl; [exact I |].
    intros Hok. fold (xp_gain_of t).
    pose proof (xp_gain_of_bounds t) as Hgain.
    destruct (awarded_ok (xp_gain_of t) now_profile p) as [Hok' Hlevel];
      [lia | exact Hok |].
    unfold awarded in Hok', Hlevel.
    destruct (level_up _ _) as [new_xp new_level].
    unfold has_profile_id. rewrite bool_decide_eq_true_2 by reflexivity. simpl.
    eexists. split; [reflexivity |]. split; assumption.
Qed.

(** X7. Over any run of requests the profile, once there, stays there,
    keeps [0 <= xp < 100] and [level >= 1], and its level never goes
    down. *)
Lemma run_profile (cls : handle_class) (rs : list request) (db : option database)
    (p : Profile.t) :
  the_profile db = Some p -> profile_ok p ->
  exists p', the_profile (run cls db rs) = Some p' /\ profile_ok p' /\
    default 1 (Profile.level p) <= default 1 (Profile.level p').
Proof.
  revert db p. induction rs as [| r rs IH]; intros db p Hp Hok; simpl.
  - exists p. repeat split; try apply Hok; [exact Hp | lia].
  - pose proof (step_profile cls db r) as Hstep. rewrite Hp in Hstep.
    destruct (Hstep Hok) as (p1 & Hp1 & Hok1 & Hle1).
    destruct (IH (step cls db r) p1 Hp1 Hok1) as (p2 & Hp2 & Hok2 & Hle2).
    exists p2. repeat split; try apply Hok2; [exact Hp2 | lia].
Qed.

(** C6. With no profile document, completing an existing task leaves the
    profile collection empty, still sets the task to done and answers
    [ok = true] with the gain of the category. *)
Theorem complete_task_without_profile (d : database) (now_task now_profile : Z)
    (task_id : string) (oid : ObjectId) (t : Task.t) :
  Bson.parse task_id = Ok oid ->
  Collection.find_one (has_task_id oid) (task d) = Some t ->
  Collection.find_one (fun _ => true) (profile d) = None ->
  exists d' : database,
    complete_task (Some d) now_task now_profile task_id =
      (Ok (CompleteResponse.mk true (xp_gain_of t)), Some d') /\
    profile d' = [] /\ profile d = [] /\
    Collection.find_one (has_task_id oid) (task d') = Some (set_done now_task t) /\
    Task.status (set_done now_task t) = Some "done".
Proof.
  intros Hparse Hfind Hprofile.
  rewrite (complete_task_found d now_task now_profile task_id oid t Hparse Hfind).
  rewrite find_one_first in Hprofile.
  destruct (profile d) as [| p0 c]; simpl in Hprofile; [| discriminate].
  eexists. split; [reflexivity |]. simpl.
  repeat split. apply find_one_update_one; [reflexivity | exact Hfind].
Qed.

Lemma complete_task_without_profile_witness :
  exists d' : database,
    complete_task (Some (mk_database [] [sample_task (Some "mind") "scheduled"] 2))
        5 6 id1 =
      (Ok (CompleteResponse.mk true (xp_gain_of (sample_task (Some "mind") "scheduled"))),
       Some d') /\
    profile d' = [] /\
    profile (mk_database [] [sample_task (Some "mind") "scheduled"] 2) = [] /\
    Collection.find_one (has_task_id oid1) (task d') =
      Some (set_done 5 (sample_task (Some "mind") "scheduled")) /\
    Task.status (set_done 5 (sample_task (Some "mind") "scheduled")) = Some "done".
Proof.
  apply (complete_task_without_profile
           (mk_database [] [sample_task (Some "mind") "scheduled"] 2) 5 6 id1 oid1
           (sample_task (Some "mind") "scheduled"));
    reflexivity.
Defined.

(** C7. A task whose category is none of the five of the table, a task with
    no category included, is completed with the default gain: the answer is
    [xp_gain = 10], and the profile gets 10 XP more, carried over into the
    level from 100 on. *)
Theorem complete_task_default_gain (d : database) (now_task now_profile : Z)
    (task_id : string) (oid : ObjectId) (t : Task.t) (p : Profile.t) :
  Bson.parse task_id = Ok oid ->
  Collection.find_one (has_task_id oid) (task d) = Some t ->
  (forall c, Task.category t = Some c ->
     c ∉ ["mind"; "fitness"; "vitality"; "wealth"; "charisma"]) ->
  Collection.find_one (fun _ => true) (profile d) = Some p ->
  exists (d' : database) (p' : Profile.t),
    complete_task (Some d) now_task now_profile task_id =
      (Ok (CompleteResponse.mk true 10), Some d') /\
    Collection.find_one (fun _ => true) (profile d') = Some p' /\
    total_xp p' = total_xp p + 10 /\
    let xp := default 0 (Profile.xp p) in
    let level := default 1 (Profile.level p) in
    (Profile.xp p', Profile.level p') =
      if xp + 10 <? 100 then (Some (xp + 10), Some level)
      else (Some ((xp + 10) mod 100), Some (level + (xp + 10) / 100)).
Proof.
  intros Hparse Hfind Hcat Hprofile.
  rewrite (complete_task_found d now_task now_profile task_id oid t Hparse Hfind).
  rewrite find_one_first in Hprofile.
  destruct (profile d) as [| p0 c]; simpl in Hprofile; [discriminate |].
  injection Hprofile as ->.
  assert (Hgain : xp_gain_of t = 10).
  { unfold xp_gain_of. rewrite xp_map_unknown; [reflexivity |].
    destruct (Task.category t) as [c' |]; simpl.
    - exact (Hcat c' eq_refl).
    - not_listed. }
  rewrite Hgain.
  eexists _, (awarded 10 now_profile p).
  split; [reflexivity |]. split; [reflexivity |].
  split; [apply total_xp_awarded |].
  unfold awarded. rewrite level_up_closed.
  destruct (_ <? _); reflexivity.
Qed.

Lemma complete_task_default_gain_witness :
  exists (d' : database) (p' : Profile.t),
    complete_task (Some (sample_db (Some "unknown-tag") "scheduled" 95 2)) 5 6 id1 =
      (Ok (CompleteResponse.mk true 10), Some d') /\
    Collection.find_one (fun _ => true) (profile d') = Some p' /\
    total_xp p' = total_xp (sample_profile 95 2) + 10 /\
    let xp := default 0 (Profile.xp (sample_profile 95 2)) in
    let level := default 1 (Profile.level (sample_profile 95 2)) in
    (Profile.xp p', Profile.level p') =
      if xp + 10 <? 100 then (Some (xp + 10), Some level)
      else (Some ((xp + 10) mod 100), Some (level + (xp + 10) / 100)).
Proof.
  apply (complete_task_default_gain (sample_db (Some "unknown-tag") "scheduled" 95 2)
           5 6 id1 oid1 (sample_task (Some "unknown-tag") "scheduled")
           (sample_profile 95 2));
    [reflexivity | reflexivity | | reflexivity].
  intros c [= <-]. not_listed.
Defined.

Example complete_task_missing_category :
  (complete_task (Some (sample_db None "scheduled" 0 1)) 5 6 id1).1 =
    Ok (CompleteResponse.mk true 10).
Proof. reflexivity. Qed.

(** ** Unknown task identifiers *)

(** C5 fails on the code. A text that is not an [ObjectId] names no stored
    task, and completing it raises [InvalidId] out of the unguarded
    [ObjectId] constructor before the store is consulted: the answer is
    not the 404 that the route gives for an identifier without a task. The
    store is left as it was. *)
Lemma complete_task_malformed_id_not_404 :
  ~ In "nope" (map (fun t => Bson.str (Task._id t))
                 (task (sample_db (Some "mind") "scheduled" 0 1))) /\
  complete_task (Some (sample_db (Some "mind") "scheduled" 0 1)) 5 6 "nope" =
    (Raise InvalidId, Some (sample_db (Some "mind") "scheduled" 0 1)) /\
  InvalidId <> HTTPException 404 "Task not found".
Proof.
  split; [| split].
  - simpl. intros [H | []]. discriminate H.
  - reflexivity.
  - discriminate.
Qed.

(** The path the route does take to the 404: a task identifier that is
    an [ObjectId] and that no stored task carries; the store, the profile
    with it, is left as it was. *)
Theorem complete_task_unknown_id (d : database) (now_task now_profile : Z)
    (task_id : string) (oid : ObjectId) :
  Bson.parse task_id = Ok oid ->
  (forall t, In t (task d) -> Task._id t <> oid) ->
  complete_task (Some d) now_task now_profile task_id =
    (Raise (HTTPException 404 "Task not found"), Some d).
Proof.
  intros Hparse Habsent. unfold complete_task.
  rewrite Hparse, (find_one_absent oid (task d) Habsent). reflexivity.
Qed.

Lemma complete_task_unknown_id_witness :
  complete_task (Some (sample_db (Some "mind") "scheduled" 0 1)) 5 6
      "0000000000000000000000ff" =
    (Raise (HTTPException 404 "Task not found"),
     Some (sample_db (Some "mind") "scheduled" 0 1)).
Proof.
  apply (complete_task_unknown_id (sample_db (Some "mind") "scheduled" 0 1) 5 6
           "0000000000000000000000ff"
           (Bson.mk_oid [x00; x00; x00; x00; x00; x00; x00; x00; x00; x00; x00; xff]));
    [reflexivity |].
  intros t [<- | []]. discriminate.
Defined.

(** X5. Whatever makes [complete_task] fail, the store is left as it
    was: a failed completion has written nothing. *)
Lemma complete_task_failure_frame (db db' : option database) (now_task now_profile : Z)
    (task_id : string) (e : exn) :
  complete_task db now_task now_profile task_id = (Raise e, db') -> db' = db.
Proof.
  unfold complete_task.
  destruct db as [d |]; [| congruence].
  destruct (Bson.parse task_id) as [oid | e']; [| congruence].
  destruct (Collection.find_one _ _); [discriminate | congruence].
Qed.

(** ** Accepting a plan *)

(** On a handle that refuses the truth test, [accept_onboarding] raises at
    [if db], for every store and every plan, and nothing is read or
    written. *)
Lemma accept_onboarding_refused (d : database) (plan : list TaskCreate.t) :
  accept_onboarding RefusesBool (Some d) plan = (Raise NotImplementedError, Some d).
Proof. reflexivity. Qed.

(** C10 fails on the code. On a connected store whose handle refuses the
    truth test, as a [pymongo] database does, accepting the empty plan
    raises [NotImplementedError] at [if db]: no answer with [ok = true] and
    [created = 0], and no profile is created in the store that has none. *)
Theorem accept_onboarding_empty_plan_raises :
  accept_onboarding RefusesBool (Some (mk_database [] [] 0)) [] =
    (Raise NotImplementedError, Some (mk_database [] [] 0)) /\
  the_profile (accept_onboarding RefusesBool (Some (mk_database [] [] 0)) []).2 = None.
Proof. split; reflexivity. Qed.

(** What the route does once the truth test answers true, as the other
    routes would after their comparison with [None]: accepting an empty
    plan inserts no task and answers [ok = true], [created = 0]; without a
    profile it creates the one with [level = 1], [xp = 0], [streak = 0] and
    answers its identifier; with one it leaves the store as it is and
    answers the identifier of the profile found. *)
Lemma accept_onboarding_empty_plan (cls : handle_class) (d : database) :
  db_bool cls (Some d) = Ok true ->
  match Collection.find_one (fun _ => true) (profile d) with
  | None =>
      exists (p : Profile.t) (d' : database),
        accept_onboarding cls (Some d) [] =
          (Ok (AcceptResponse.mk true (Bson.str (Profile._id p)) 0), Some d') /\
        profile d' = [p] /\ task d' = task d /\
        Profile.level p = Some 1 /\ Profile.xp p = Some 0 /\
        Profile.streak p = Some 0
  | Some p =>
      accept_onboarding cls (Some d) [] =
        (Ok (AcceptResponse.mk true (Bson.str (Profile._id p)) 0), Some d)
  end.
Proof.
  intros Hbool. rewrite find_one_first. unfold accept_onboarding. rewrite Hbool.
  destruct d as [[| p c] tasks next]; simpl; [| reflexivity].
  exists (Profile.mk (fresh_id (mk_database [] tasks next)) (Some 1) (Some 0) (Some 0) None).
  eexists. split; [reflexivity |]. repeat split.
Qed.

Example accept_onboarding_empty_store :
  accept_onboarding PlainObject (Some (mk_database [] [] 0)) [] =
    (Ok (AcceptResponse.mk true "000000000000000000000000" 0),
     Some (mk_database [sample_profile 0 1] [] 1)).
Proof. reflexivity. Qed.

(** ** Listing the tasks *)

Lemma str_le_total (a b : string) : str_le a b \/ str_le b a.
Proof. apply String.leb_total. Qed.

Lemma str_le_trans (a b c : string) : str_le a b -> str_le b c -> str_le a c.
Proof.
  unfold str_le, String.leb. revert b c.
  induction a as [| x a IH]; intros [| y b] [| z c]; simpl; try easy.
  unfold Ascii.compare.
  destruct (N.compare_spec (N_of_ascii x) (N_of_ascii y)),
           (N.compare_spec (N_of_ascii y) (N_of_ascii z)),
           (N.compare_spec (N_of_ascii x) (N_of_ascii z));
    try lia; try easy.
  apply IH.
Qed.

Section SortFacts.
Context {A : Type} (key : A -> string).

Let le (x y : A) : Prop := str_le (key x) (key y).

Lemma insert_perm (x : A) (l : list A) : Permutation (Py.insert key x l) (x :: l).
Proof.
  induction l as [| y l IH]; simpl; [reflexivity |].
  destruct (String.leb (key x) (key y)); [reflexivity |].
  rewrite IH. apply perm_swap.
Qed.

Lemma sort_perm (l : list A) : Permutation (Py.sort key l) l.
Proof.
  induction l as [| x l IH]; simpl; [reflexivity |].
  rewrite insert_perm, IH. reflexivity.
Qed.

Lemma insert_sorted (x : A) (l : list A) :
  StronglySorted le l -> StronglySorted le (Py.insert key x l).
Proof.
  induction 1 as [| y l Hl IH Hy]; simpl.
  - constructor; constructor.
  - destruct (String.leb (key x) (key y)) eqn:E.
    + constructor; [constructor; assumption |].
      constructor; [exact E |].
      eapply Forall_impl; [exact Hy |].
      intros z Hz. exact (str_le_trans _ _ _ E Hz).
    + constructor; [exact IH |].
      assert (Hyx : le y x).
      { destruct (str_le_total (key x) (key y)) as [H | H]; [| exact H].
        unfold str_le in H. congruence. }
      rewrite (List.Forall_forall (le y)). intros z Hz.
      apply (Permutation_in _ (insert_perm x l)) in Hz as [<- | Hz]; [exact Hyx |].
      rewrite (List.Forall_forall (le y)) in Hy. auto.
Qed.

Lemma sort_sorted (l : list A) : StronglySorted le (Py.sort key l).
Proof.
  induction l as [| x l IH]; simpl; [constructor | apply insert_sorted, IH].
Qed.
(** The sort is stable: tasks with the same key keep their order. *)
Lemma insert_stable (k : string) (x : A) (l : list A) :
  List.filter (fun y => String.eqb (key y) k) (Py.insert key x l) =
  List.filter (fun y => String.eqb (key y) k) (x :: l).
Proof.
  induction l as [| y l IH]; simpl; [reflexivity |].
  destruct (String.leb (key x) (key y)) eqn:E; [reflexivity |].
  simpl. rewrite IH. simpl.
  destruct (String.eqb_spec (key x) k) as [Hx |]; [| reflexivity].
  destruct (String.eqb_spec (key y) k) as [Hy |]; [| reflexivity].
  destruct (str_le_total (key x) (key x)) as [H | H];
    unfold str_le in H; congruence.
Qed.

Lemma sort_stable (k : string) (l : list A) :
  List.filter (fun y => String.eqb (key y) k) (Py.sort key l) =
  List.filter (fun y => String.eqb (key y) k) l.
Proof.
  induction l as [| x l IH]; simpl; [reflexivity |].
  rewrite insert_stable. simpl. rewrite IH. reflexivity.
Qed.
End SortFacts.

Lemma StronglySorted_map {A B : Type} (f : A -> B) (R : B -> B -> Prop) (l : list A) :
  StronglySorted (fun x y => R (f x) (f y)) l -> StronglySorted R (map f l).
Proof.
  induction 1 as [| x l Hl IH Hx]; simpl; constructor; [exact IH |].
  rewrite Forall_map. exact Hx.
Qed.

(** C8. Whatever the stored tasks and the order they were inserted in,
    [list_tasks] answers the tasks that the filter retains, sorted by
    ascending [start]. *)
Theorem list_tasks_sorted (d : database) (status : option string) :
  exists out : list TaskOut.t,
    list_tasks (Some d) status = Ok out /\
    StronglySorted (fun a b => str_le (TaskOut.start a) (TaskOut.start b)) out /\
    Permutation out (map task_out (List.filter (selected status) (task d))).
Proof.
  eexists. split; [reflexivity |].
  assert (Hfilter :
    Collection.find
      (fun r =>
         match match status with
               | Some s => if Py.truthy s then Some s else None
               | None => None
               end with
         | None => true
         | Some s => bool_decide (Task.status r = Some s)
         end) (task d) = List.filter (selected status) (task d)).
  { apply List.filter_ext. intros r. destruct status as [[| c s] |]; reflexivity. }
  rewrite Hfilter. split.
  - apply StronglySorted_map with (f := task_out). simpl.
    apply (sort_sorted (fun r => default "" (Task.start r))).
  - apply Permutation_map with (f := task_out), sort_perm.
Qed.

(** ** The library models on known values *)

Example ord2ymd_epoch : Datetime.ord2ymd 719163 = (1970, 1, 1).
Proof. reflexivity. Qed.

Example ord2ymd_leap_day : Datetime.ord2ymd 738945 = (2024, 2, 29).
Proof. reflexivity. Qed.

Example ord2ymd_first : Datetime.ord2ymd 1 = (1, 1, 1).
Proof. reflexivity. Qed.

Example ord2ymd_last : Datetime.ord2ymd Datetime.MAXORDINAL = (9999, 12, 31).
Proof. reflexivity. Qed.

Example ord2ymd_dec31_leap : Datetime.ord2ymd 739251 = (2024, 12, 31).
Proof. reflexivity. Qed.

Example isoformat_example :
  Datetime.isoformat (Datetime.mk_datetime 738886 7 0 0 0) = "2024-01-01T07:00:00".
Proof. reflexivity. Qed.

Example fromhex_spaces : Py.fromhex "0a ff" = Some [x0a; xff].
Proof. reflexivity. Qed.

Example contains_low : Py.contains "low" "low-evening" = true.
Proof. reflexivity. Qed.

Example parse_upper_case :
  Bson.parse "0000000000000000000000FF" = Bson.parse "0000000000000000000000ff".
Proof. reflexivity. Qed.

Example parse_too_short : Bson.parse "abc" = Raise InvalidId.
Proof. reflexivity. Qed.

Example zfill_examples :
  (Py.zfill 4 33, Py.zfill 2 7, Py.zfill 2 12, Py.zfill 4 (-5)) =
  ("0033", "07", "12", "-005").
Proof. reflexivity. Qed.

Example list_tasks_example :
  list_tasks
    (accept_onboarding PlainObject (Some (mk_database [] [] 0))
       [ TaskCreate.mk "Meal Prep" "2024-01-01T18:00:00" "2024-01-01T18:45:00"
           "vitality" "scheduled";
         TaskCreate.mk "Zone 2 Run" "2024-01-01T12:30:00" "2024-01-01T13:10:00"
           "fitness" "scheduled" ]).2
    None
  = Ok [ TaskOut.mk "000000000000000000000002" "Zone 2 Run" "2024-01-01T12:30:00"
           "2024-01-01T13:10:00" "fitness" "scheduled";
         TaskOut.mk "000000000000000000000001" "Meal Prep" "2024-01-01T18:00:00"
           "2024-01-01T18:45:00" "vitality" "scheduled" ].
Proof. reflexivity. Qed.

(** * Further properties of the routes *)

(** ** Identifiers: from the listing back to [complete_task] *)

Lemma fromhex_hexlify_byte (x : byte) (rest : string) :
  Py.fromhex
    (String (Py.hexdigit (Byte.to_N x / 16))
       (String (Py.hexdigit (Byte.to_N x mod 16)) rest)) =
  cons x <$> Py.fromhex rest.
Proof. destruct x; reflexivity. Qed.

(** [bytes.fromhex] undoes [hexlify]. *)
Lemma fromhex_hexlify (b : list byte) : Py.fromhex (Py.hexlify b) = Some b.
Proof.
  induction b as [| x b IH]; [reflexivity |].
  change (Py.hexlify (x :: b)) with
    (String (Py.hexdigit (Byte.to_N x / 16))
       (String (Py.hexdigit (Byte.to_N x mod 16)) (Py.hexlify b))).
  rewrite fromhex_hexlify_byte, IH. reflexivity.
Qed.

Lemma length_hexlify (b : list byte) :
  String.length (Py.hexlify b) = (2 * List.length b)%nat.
Proof. induction b as [| x b IH]; simpl; [reflexivity | rewrite IH; lia]. Qed.

(** The text of a twelve-byte identifier reads back as the identifier. *)
Lemma parse_str (oid : ObjectId) :
  twelve_bytes oid -> Bson.parse (Bson.str oid) = Ok oid.
Proof.
  unfold twelve_bytes, Bson.parse, Bson.str. intros H.
  rewrite length_hexlify, H, fromhex_hexlify. destruct oid. reflexivity.
Qed.

Lemma find_one_present (r : Task.t) (c : list Task.t) :
  In r c ->
  exists t, Collection.find_one (has_task_id (Task._id r)) c = Some t /\
    Task._id t = Task._id r /\ In t c.
Proof.
  unfold Collection.find_one. intros Hin.
  destruct (List.find (has_task_id (Task._id r)) c) as [t |] eqn:E.
  - apply find_some in E as [Ht Hid]. exists t.
    unfold has_task_id in Hid. apply bool_decide_eq_true in Hid. auto.
  - apply (find_none _ _ E) in Hin. unfold has_task_id in Hin.
    rewrite bool_decide_eq_true_2 in Hin by reflexivity. discriminate.
Qed.

(** What [list_tasks] answers on an available store. *)
Lemma list_tasks_eq (d : database) (status : option string) :
  list_tasks (Some d) status =
    Ok (map task_out
          (Py.sort (fun r => default "" (Task.start r))
             (List.filter (selected status) (task d)))).
Proof.
  unfold list_tasks, get_documents, Collection.find. simpl. do 3 f_equal.
  apply List.filter_ext. intros r. destruct status as [[| c s] |]; reflexivity.
Qed.

Lemma list_tasks_row (d : database) (status : option string) (out : list TaskOut.t)
    (o : TaskOut.t) :
  list_tasks (Some d) status = Ok out -> In o out ->
  exists r, In r (task d) /\ selected status r = true /\ o = task_out r.
Proof.
  rewrite list_tasks_eq. intros [= <-] Hin.
  apply in_map_iff in Hin as (r & <- & Hr).
  apply (Permutation_in _ (sort_perm _ _)) in Hr.
  apply filter_In in Hr as [Hr Hsel]. eauto.
Qed.

(** X1. Every identifier that [list_tasks] shows is one [complete_task]
    accepts: with twelve-byte identifiers in the store, completing the [id]
    of a listed row succeeds, on a stored task that carries this [id]. *)
Theorem complete_task_listed_id (d : database) (status : option string)
    (out : list TaskOut.t) (o : TaskOut.t) (now_task now_profile : Z) :
  Forall (fun t => twelve_bytes (Task._id t)) (task d) ->
  list_tasks (Some d) status = Ok out ->
  In o out ->
  exists (t : Task.t) (d' : database),
    In t (task d) /\ Bson.str (Task._id t) = TaskOut.id o /\
    complete_task (Some d) now_task now_profile (TaskOut.id o) =
      (Ok (CompleteResponse.mk true (xp_gain_of t)), Some d').
Proof.
  intros Hids Hlist Hin.
  destruct (list_tasks_row d status out o Hlist Hin) as (r & Hr & _ & ->).
  destruct (find_one_present r (task d) Hr) as (t & Hfind & Hid & Ht).
  exists t. eexists. split; [exact Ht |]. split; [simpl; congruence |].
  apply complete_task_found; [| exact Hfind].
  simpl. apply parse_str.
  rewrite List.Forall_forall in Hids. exact (Hids r Hr).
Qed.

Lemma complete_task_listed_id_witness :
  exists (t : Task.t) (d' : database),
    In t (task (sample_db (Some "mind") "scheduled" 0 1)) /\
    Bson.str (Task._id t) = TaskOut.id (task_out (sample_task (Some "mind") "scheduled")) /\
    complete_task (Some (sample_db (Some "mind") "scheduled" 0 1)) 5 6
        (TaskOut.id (task_out (sample_task (Some "mind") "scheduled"))) =
      (Ok (CompleteResponse.mk true (xp_gain_of t)), Some d').
Proof.
  apply (complete_task_listed_id (sample_db (Some "mind") "scheduled" 0 1) None
           [task_out (sample_task (Some "mind") "scheduled")]
           (task_out (sample_task (Some "mind") "scheduled")) 5 6).
  - repeat constructor.
  - reflexivity.
  - left. reflexivity.
Defined.

(** X2. A task identifier that is not twenty-four characters long makes
    [complete_task] raise [InvalidId], whatever the store holds, and the
    store is left as it was. *)
Theorem complete_task_bad_length (d : database) (now_task now_profile : Z)
    (task_id : string) :
  String.length task_id <> 24%nat ->
  complete_task (Some d) now_task now_profile task_id = (Raise InvalidId, Some d).
Proof.
  intros H. unfold complete_task, Bson.parse.
  destruct (Nat.eqb_spec (String.length task_id) 24); [contradiction | reflexivity].
Qed.

Lemma complete_task_bad_length_witness :
  complete_task (Some (sample_db (Some "mind") "scheduled" 0 1)) 5 6 "42" =
    (Raise InvalidId, Some (sample_db (Some "mind") "scheduled" 0 1)).
Proof.
  apply (complete_task_bad_length (sample_db (Some "mind") "scheduled" 0 1) 5 6 "42").
  simpl. lia.
Defined.

(** ** What a completion touches *)

Lemma length_update_one {D : Type} (f : D -> bool) (set : D -> D) (c : list D) :
  List.length (Collection.update_one f set c) = List.length c.
Proof.
  induction c as [| x c IH]; simpl; [reflexivity |].
  destruct (f x); simpl; congruence.
Qed.

Lemma find_one_update_one_other (oid oid' : ObjectId) (set : Task.t -> Task.t)
    (c : list Task.t) :
  oid' <> oid ->
  (forall x, Task._id (set x) = Task._id x) ->
  Collection.find_one (has_task_id oid')
    (Collection.update_one (has_task_id oid) set c) =
  Collection.find_one (has_task_id oid') c.
Proof.
  intros Hne Hid. unfold Collection.find_one.
  induction c as [| x c IH]; simpl; [reflexivity |].
  destruct (has_task_id oid x) eqn:Hx; simpl.
  - unfold has_task_id in *. apply bool_decide_eq_true in Hx.
    rewrite !bool_decide_eq_false_2; [reflexivity | congruence |].
    rewrite Hid. congruence.
  - rewrite IH. reflexivity.
Qed.

(** X3. A successful completion rewrites one task only: the task found gets
    [status = "done"] and [updated_at = now] and keeps its other fields, a
    lookup under any other identifier answers as before, and no task is
    added or removed. *)
Theorem complete_task_touches_one_task (d : database) (now_task now_profile : Z)
    (task_id : string) (oid : ObjectId) (t : Task.t) :
  Bson.parse task_id = Ok oid ->
  Collection.find_one (has_task_id oid) (task d) = Some t ->
  exists (d' : database) (t' : Task.t),
    complete_task (Some d) now_task now_profile task_id =
      (Ok (CompleteResponse.mk true (xp_gain_of t)), Some d') /\
    Collection.find_one (has_task_id oid) (task d') = Some t' /\
    Task._id t' = Task._id t /\ Task.title t' = Task.title t /\
    Task.start t' = Task.start t /\ Task.end_ t' = Task.end_ t /\
    Task.category t' = Task.category t /\
    Task.status t' = Some "done" /\ Task.updated_at t' = Some now_task /\
    (forall oid', oid' <> oid ->
       Collection.find_one (has_task_id oid') (task d') =
       Collection.find_one (has_task_id oid') (task d)) /\
    List.length (task d') = List.length (task d) /\
    next_id d' = next_id d.
Proof.
  intros Hparse Hfind.
  rewrite (complete_task_found d now_task now_profile task_id oid t Hparse Hfind).
  eexists _, (set_done now_task t). split; [reflexivity |]. simpl.
  split; [apply find_one_update_one; [reflexivity | exact Hfind] |].
  repeat (split; [reflexivity |]).
  split; [| split; [apply length_update_one | reflexivity]].
  intros oid' Hne. apply find_one_update_one_other; [exact Hne | reflexivity].
Qed.

Lemma complete_task_touches_one_task_witness :
  exists (d' : database) (t' : Task.t),
    complete_task (Some (sample_db (Some "mind") "scheduled" 0 1)) 5 6 id1 =
      (Ok (CompleteResponse.mk true (xp_gain_of (sample_task (Some "mind") "scheduled"))),
       Some d') /\
    Collection.find_one (has_task_id oid1) (task d') = Some t' /\
    Task._id t' = Task._id (sample_task (Some "mind") "scheduled") /\
    Task.title t' = Task.title (sample_task (Some "mind") "scheduled") /\
    Task.start t' = Task.start (sample_task (Some "mind") "scheduled") /\
    Task.end_ t' = Task.end_ (sample_task (Some "mind") "scheduled") /\
    Task.category t' = Task.category (sample_task (Some "mind") "scheduled") /\
    Task.status t' = Some "done" /\ Task.updated_at t' = Some 5 /\
    (forall oid', oid' <> oid1 ->
       Collection.find_one (has_task_id oid')
         (task d') =
       Collection.find_one (has_task_id oid')
         (task (sample_db (Some "mind") "scheduled" 0 1))) /\
    List.length (task d') =
      List.length (task (sample_db (Some "mind") "scheduled" 0 1)) /\
    next_id d' = next_id (sample_db (Some "mind") "scheduled" 0 1).
Proof.
  apply (complete_task_touches_one_task (sample_db (Some "mind") "scheduled" 0 1)
           5 6 id1 oid1 (sample_task (Some "mind") "scheduled"));
    reflexivity.
Defined.

(** X4. A successful completion rewrites the first profile document only,
    and of it only [xp], [level] and [updated_at]: its [_id] and [streak]
    stay, and so do the profile documents after it. *)
Theorem complete_task_profile_frame (d : database) (now_task now_profile : Z)
    (task_id : string) (oid : ObjectId) (t : Task.t) (p : Profile.t)
    (c : list Profile.t) :
  Bson.parse task_id = Ok oid ->
  Collection.find_one (has_task_id oid) (task d) = Some t ->
  profile d = p :: c ->
  exists (d' : database) (p' : Profile.t),
    complete_task (Some d) now_task now_profile task_id =
      (Ok (CompleteResponse.mk true (xp_gain_of t)), Some d') /\
    profile d' = p' :: c /\
    Profile._id p' = Profile._id p /\ Profile.streak p' = Profile.streak p /\
    Profile.updated_at p' = Some now_profile.
Proof.
  intros Hparse Hfind Hp.
  rewrite (complete_task_found d now_task now_profile task_id oid t Hparse Hfind), Hp.
  eexists _, (awarded (xp_gain_of t) now_profile p).
  split; [reflexivity |]. split; [reflexivity |].
  unfold awarded. destruct (level_up _ _). repeat split.
Qed.

Lemma complete_task_profile_frame_witness :
  exists (d' : database) (p' : Profile.t),
    complete_task (Some (sample_db (Some "mind") "scheduled" 0 1)) 5 6 id1 =
      (Ok (CompleteResponse.mk true (xp_gain_of (sample_task (Some "mind") "scheduled"))),
       Some d') /\
    profile d' = p' :: [] /\
    Profile._id p' = Profile._id (sample_profile 0 1) /\
    Profile.streak p' = Profile.streak (sample_profile 0 1) /\
    Profile.updated_at p' = Some 6.
Proof.
  apply (complete_task_profile_frame (sample_db (Some "mind") "scheduled" 0 1)
           5 6 id1 oid1 (sample_task (Some "mind") "scheduled")
           (sample_profile 0 1) []);
    reflexivity.
Defined.

(** X5. When [complete_task] fails, for whatever reason, it has written
    nothing ([complete_task_failure_frame]); here on an unknown task. *)
Lemma complete_task_failure_frame_witness :
  Some (sample_db (Some "mind") "scheduled" 0 1) =
  Some (sample_db (Some "mind") "scheduled" 0 1).
Proof.
  apply (complete_task_failure_frame (Some (sample_db (Some "mind") "scheduled" 0 1))
           (Some (sample_db (Some "mind") "scheduled" 0 1)) 5 6
           "0000000000000000000000ff" (HTTPException 404 "Task not found")).
  reflexivity.
Defined.

(** ** The profile as [get_profile] shows it *)

(** X6. [get_profile] after a successful completion. With a profile in the
    store it shows the XP after the gain, reduced below 100 with one level
    for each 100, however many, and the streak as before; with none it
    shows the defaults as before: the gain is lost. *)
Theorem get_profile_after_complete (d : database) (now_task now_profile : Z)
    (task_id : string) (oid : ObjectId) (t : Task.t) (level xp streak : Z) :
  Bson.parse task_id = Ok oid ->
  Collection.find_one (has_task_id oid) (task d) = Some t ->
  get_profile (Some d) = Ok (ProfileResponse.mk level xp streak) ->
  exists d' : database,
    complete_task (Some d) now_task now_profile task_id =
      (Ok (CompleteResponse.mk true (xp_gain_of t)), Some d') /\
    get_profile (Some d') =
      Ok match profile d with
         | [] => ProfileResponse.mk level xp streak
         | _ :: _ =>
             if xp + xp_gain_of t <? 100
             then ProfileResponse.mk level (xp + xp_gain_of t) streak
             else ProfileResponse.mk (level + (xp + xp_gain_of t) / 100)
                    ((xp + xp_gain_of t) mod 100) streak
         end.
Proof.
  intros Hparse Hfind Hget.
  rewrite (complete_task_found d now_task now_profile task_id oid t Hparse Hfind).
  eexists. split; [reflexivity |].
  unfold get_profile in *. rewrite find_one_first in *. simpl.
  destruct (profile d) as [| p c]; simpl in *; [exact Hget |].
  injection Hget as <- <- <-.
  unfold awarded. rewrite level_up_closed.
  destruct (_ <? _); reflexivity.
Qed.

Lemma get_profile_after_complete_witness :
  exists d' : database,
    complete_task (Some (sample_db (Some "fitness") "scheduled" 250 1)) 5 6 id1 =
      (Ok (CompleteResponse.mk true
             (xp_gain_of (sample_task (Some "fitness") "scheduled"))), Some d') /\
    get_profile (Some d') =
      Ok match profile (sample_db (Some "fitness") "scheduled" 250 1) with
         | [] => ProfileResponse.mk 1 250 0
         | _ :: _ =>
             if 250 + xp_gain_of (sample_task (Some "fitness") "scheduled") <? 100
             then ProfileResponse.mk 1
                    (250 + xp_gain_of (sample_task (Some "fitness") "scheduled")) 0
             else ProfileResponse.mk
                    (1 + (250 + xp_gain_of (sample_task (Some "fitness") "scheduled")) / 100)
                    ((250 + xp_gain_of (sample_task (Some "fitness") "scheduled")) mod 100) 0
         end.
Proof.
  apply (get_profile_after_complete (sample_db (Some "fitness") "scheduled" 250 1)
           5 6 id1 oid1 (sample_task (Some "fitness") "scheduled") 1 250 0);
    reflexivity.
Defined.

Example get_profile_multi_level :
  get_profile
    (complete_task (Some (sample_db (Some "fitness") "scheduled" 250 1)) 5 6 id1).2
  = Ok (ProfileResponse.mk 3 70 0).
Proof. reflexivity. Qed.

(** ** Runs of requests *)

(** [run_profile] on three completions, two of them on a task that exists,
    around an acceptance. *)
Lemma run_profile_witness :
  exists p', the_profile
               (run PlainObject (Some (sample_db (Some "fitness") "scheduled" 90 1))
                  [Complete 5 6 id1; Accept []; Complete 7 8 id1; Complete 9 9 "x"])
             = Some p' /\ profile_ok p' /\
    default 1 (Profile.level (sample_profile 90 1)) <= default 1 (Profile.level p').
Proof.
  apply (run_profile PlainObject
           [Complete 5 6 id1; Accept []; Complete 7 8 id1; Complete 9 9 "x"]
           (Some (sample_db (Some "fitness") "scheduled" 90 1)) (sample_profile 90 1)).
  - reflexivity.
  - unfold profile_ok. simpl. lia.
Defined.

Lemma step_identity (cls : handle_class) (db : option database) (r : request)
    (p : Profile.t) :
  the_profile db = Some p ->
  exists p', the_profile (step cls db r) = Some p' /\
    Profile._id p' = Profile._id p /\ Profile.streak p' = Profile.streak p.
Proof.
  destruct db as [[[| p0 c] tasks next] |]; simpl; try discriminate.
  intros [= ->].
  destruct r as [plan | now_task now_profile task_id]; simpl.
  - unfold accept_onboarding. destruct cls; simpl; [eauto |].
    destruct (insert_tasks_ok (mk_database (p :: c) tasks next) plan [])
      as (ids & d' & Hrun & _ & Hprofile & _).
    rewrite Hrun. simpl. rewrite find_one_first, Hprofile. simpl. eauto.
  - unfold complete_task.
    destruct (Bson.parse task_id) as [oid | e]; simpl; [| eauto].
    destruct (Collection.find_one (has_task_id oid) tasks) as [t |]; simpl; [| eauto].
    destruct (level_up _ _) as [new_xp new_level]. simpl.
    unfold has_profile_id. rewrite bool_decide_eq_true_2 by reflexivity. simpl.
    eauto.
Qed.

(** X8. No run of requests changes the identifier or the streak of the
    profile: the first profile document stays the first, and nothing ever
    writes [streak]. *)
Theorem run_keeps_streak (cls : handle_class) (rs : list request)
    (db : option database) (p : Profile.t) :
  the_profile db = Some p ->
  exists p', the_profile (run cls db rs) = Some p' /\
    Profile._id p' = Profile._id p /\ Profile.streak p' = Profile.streak p.
Proof.
  revert db p. induction rs as [| r rs IH]; intros db p Hp; simpl.
  - eauto.
  - destruct (step_identity cls db r p Hp) as (p1 & Hp1 & Hid1 & Hs1).
    destruct (IH (step cls db r) p1 Hp1) as (p2 & Hp2 & Hid2 & Hs2).
    exists p2. repeat split; congruence.
Qed.

Lemma run_keeps_streak_witness :
  exists p', the_profile
               (run PlainObject (Some (sample_db (Some "fitness") "scheduled" 90 1))
                  [Complete 5 6 id1; Accept []; Complete 7 8 id1])
             = Some p' /\
    Profile._id p' = Profile._id (sample_profile 90 1) /\
    Profile.streak p' = Profile.streak (sample_profile 90 1).
Proof.
  apply (run_keeps_streak PlainObject [Complete 5 6 id1; Accept []; Complete 7 8 id1]
           (Some (sample_db (Some "fitness") "scheduled" 90 1)) (sample_profile 90 1)).
  reflexivity.
Defined.

(** ** Accepting a plan with tasks *)

Lemma insert_tasks_appends (d : database) (plan : list TaskCreate.t)
    (inserted : list string) :
  exists (ids : list string) (news : list Task.t) (d' : database),
    insert_tasks (Some d) plan inserted = (Ok (inserted ++ ids)%list, Some d') /\
    List.length ids = List.length plan /\
    profile d' = profile d /\
    task d' = (task d ++ news)%list /\
    Forall2 stores plan news.
Proof.
  revert d inserted. induction plan as [| t plan IH]; intros d inserted; simpl.
  - exists [], [], d. rewrite !app_nil_r. repeat split. constructor.
  - destruct (IH (mk_database (profile d)
                    (Collection.insert_one
                       (Task.mk (fresh_id d) (Some (TaskCreate.title t))
                          (Some (TaskCreate.start t)) (Some (TaskCreate.end_ t))
                          (Some (TaskCreate.category t)) (Some (TaskCreate.status t))
                          None) (task d))
                    (N.succ (next_id d)))
                (inserted ++ [Bson.str (fresh_id d)])%list)
      as (ids & news & d' & Hrun & Hlen & Hprofile & Htasks & Hnews).
    eexists (Bson.str (fresh_id d) :: ids), (_ :: news), d'.
    rewrite Hrun, <- app_assoc. simpl in *.
    unfold Collection.insert_one in Htasks. rewrite <- app_assoc in Htasks.
    repeat split; [congruence | assumption | exact Htasks |].
    constructor; [| exact Hnews]. repeat split.
Qed.

(** X9. Where the truth test of the handle answers true,
    [accept_onboarding] succeeds for every plan: [created] is the length of
    the plan, the stored tasks are those from before followed by one task
    for each record of the plan, in order and with the fields as given, and
    the profiles are untouched if there is one, the initial one if there is
    none. *)
Theorem accept_onboarding_inserts_plan (cls : handle_class) (d : database)
    (plan : list TaskCreate.t) :
  db_bool cls (Some d) = Ok true ->
  exists (profile_id : string) (news : list Task.t) (d' : database),
    accept_onboarding cls (Some d) plan =
      (Ok (AcceptResponse.mk true profile_id (Z.of_nat (List.length plan))), Some d') /\
    task d' = (task d ++ news)%list /\
    Forall2 stores plan news /\
    match profile d with
    | [] =>
        exists p, profile d' = [p] /\ profile_id = Bson.str (Profile._id p) /\
          Profile.level p = Some 1 /\ Profile.xp p = Some 0 /\
          Profile.streak p = Some 0
    | p :: _ => profile d' = profile d /\ profile_id = Bson.str (Profile._id p)
    end.
Proof.
  intros Hbool. unfold accept_onboarding. rewrite Hbool, find_one_first.
  destruct d as [[| p c] tasks next]; simpl.
  - destruct (insert_tasks_appends
                (mk_database
                   [Profile.mk (fresh_id (mk_database [] tasks next))
                      (Some 1) (Some 0) (Some 0) None]
                   tasks (N.succ next)) plan [])
      as (ids & news & d' & Hrun & Hlen & Hprofile & Htasks & Hnews).
    unfold Collection.insert_one. simpl. rewrite Hrun. simpl.
    eexists _, news, d'. rewrite Hlen.
    split; [reflexivity |]. split; [exact Htasks |]. split; [exact Hnews |].
    eexists. split; [exact Hprofile |]. repeat split.
  - destruct (insert_tasks_appends (mk_database (p :: c) tasks next) plan [])
      as (ids & news & d' & Hrun & Hlen & Hprofile & Htasks & Hnews).
    rewrite Hrun. simpl. eexists _, news, d'. rewrite Hlen.
    split; [reflexivity |]. split; [exact Htasks |]. split; [exact Hnews |].
    split; [exact Hprofile | reflexivity].
Qed.

Lemma accept_onboarding_inserts_plan_witness :
  exists (profile_id : string) (news : list Task.t) (d' : database),
    accept_onboarding PlainObject (Some (mk_database [] [] 0))
        [TaskCreate.mk "Run" "2024-01-01T12:30:00" "2024-01-01T13:10:00" "fitness"
           "scheduled"] =
      (Ok (AcceptResponse.mk true profile_id
             (Z.of_nat (List.length
                          [TaskCreate.mk "Run" "2024-01-01T12:30:00"
                             "2024-01-01T13:10:00" "fitness" "scheduled"]))),
       Some d') /\
    task d' = (task (mk_database [] [] 0) ++ news)%list /\
    Forall2 stores
      [TaskCreate.mk "Run" "2024-01-01T12:30:00" "2024-01-01T13:10:00" "fitness"
         "scheduled"] news /\
    match profile (mk_database [] [] 0) with
    | [] =>
        exists p, profile d' = [p] /\ profile_id = Bson.str (Profile._id p) /\
          Profile.level p = Some 1 /\ Profile.xp p = Some 0 /\
          Profile.streak p = Some 0
    | p :: _ =>
        profile d' = profile (mk_database [] [] 0) /\
        profile_id = Bson.str (Profile._id p)
    end.
Proof.
  apply (accept_onboarding_inserts_plan PlainObject (mk_database [] [] 0)
           [TaskCreate.mk "Run" "2024-01-01T12:30:00" "2024-01-01T13:10:00" "fitness"
              "scheduled"]).
  reflexivity.
Defined.

(** X10. [get_profile] cannot tell that a plan was accepted: it answers
    the same before and after, also when the acceptance created the
    profile, whose initial values are the defaults [get_profile] shows for
    a store without one, and also when the acceptance raised. *)
Theorem get_profile_after_accept (cls : handle_class) (d : database)
    (plan : list TaskCreate.t) :
  get_profile (accept_onboarding cls (Some d) plan).2 = get_profile (Some d).
Proof.
  unfold accept_onboarding. destruct cls; simpl db_bool; cbv iota; [reflexivity |].
  rewrite find_one_first.
  destruct d as [[| p c] tasks next]; simpl.
  - destruct (insert_tasks_appends
                (mk_database
                   [Profile.mk (fresh_id (mk_database [] tasks next))
                      (Some 1) (Some 0) (Some 0) None]
                   tasks (N.succ next)) plan [])
      as (ids & news & d' & Hrun & _ & Hprofile & _).
    unfold Collection.insert_one. simpl. rewrite Hrun. simpl.
    rewrite find_one_first, Hprofile. reflexivity.
  - destruct (insert_tasks_appends (mk_database (p :: c) tasks next) plan [])
      as (ids & news & d' & Hrun & _ & Hprofile & _).
    rewrite Hrun. simpl. rewrite find_one_first, Hprofile. reflexivity.
Qed.

(** ** The listing after the other routes *)

Lemma accept_onboarding_tasks (cls : handle_class) (d : database)
    (plan : list TaskCreate.t) :
  db_bool cls (Some d) = Ok true ->
  exists (news : list Task.t) (d' : database),
    (accept_onboarding cls (Some d) plan).2 = Some d' /\
    task d' = (task d ++ news)%list /\ Forall2 stores plan news.
Proof.
  intros Hbool. unfold accept_onboarding. rewrite Hbool, find_one_first.
  destruct d as [[| p c] tasks next]; simpl.
  - destruct (insert_tasks_appends
                (mk_database
                   [Profile.mk (fresh_id (mk_database [] tasks next))
                      (Some 1) (Some 0) (Some 0) None]
                   tasks (N.succ next)) plan [])
      as (ids & news & d' & Hrun & _ & _ & Htasks & Hnews).
    unfold Collection.insert_one. simpl. rewrite Hrun. simpl. eauto.
  - destruct (insert_tasks_appends (mk_database (p :: c) tasks next) plan [])
      as (ids & news & d' & Hrun & _ & _ & Htasks & Hnews).
    rewrite Hrun. simpl. eauto.
Qed.

Lemma filter_selected_None (l : list Task.t) : List.filter (selected None) l = l.
Proof.
  induction l as [| x l IH]; simpl; [reflexivity | rewrite IH; reflexivity].
Qed.

Lemma stores_as_create (plan : list TaskCreate.t) (news : list Task.t) :
  Forall2 stores plan news -> map (fun t => as_create (task_out t)) news = plan.
Proof.
  induction 1 as [| c t plan news (H1 & H2 & H3 & H4 & H5 & _) _ IH]; simpl;
    [reflexivity |].
  rewrite IH. f_equal. unfold as_create, task_out. simpl.
  rewrite H1, H2, H3, H4, H5. destruct c. reflexivity.
Qed.

(** X11. Where the truth test of the handle answers true, what is accepted
    is listed: after [accept_onboarding], the unfiltered listing holds the
    rows from before and one row for each record of the plan, with the
    title, start, end, category and status as given. *)
Theorem list_tasks_after_accept (cls : handle_class) (d : database)
    (plan : list TaskCreate.t) :
  db_bool cls (Some d) = Ok true ->
  exists out out' : list TaskOut.t,
    list_tasks (Some d) None = Ok out /\
    list_tasks (accept_onboarding cls (Some d) plan).2 None = Ok out' /\
    Permutation (map as_create out') (map as_create out ++ plan)%list.
Proof.
  intros Hbool.
  destruct (accept_onboarding_tasks cls d plan Hbool)
    as (news & d' & Hrun & Htasks & Hnews).
  rewrite Hrun, !list_tasks_eq, !filter_selected_None, Htasks.
  eexists _, _. split; [reflexivity |]. split; [reflexivity |].
  rewrite !map_map.
  rewrite (sort_perm (fun r => default "" (Task.start r)) (task d ++ news)%list).
  rewrite (sort_perm (fun r => default "" (Task.start r)) (task d)).
  rewrite map_app, (stores_as_create plan news Hnews). reflexivity.
Qed.

Lemma list_tasks_after_accept_witness :
  exists out out' : list TaskOut.t,
    list_tasks (Some (sample_db (Some "mind") "scheduled" 0 1)) None = Ok out /\
    list_tasks
      (accept_onboarding PlainObject (Some (sample_db (Some "mind") "scheduled" 0 1))
         [TaskCreate.mk "Meal Prep" "2024-01-01T18:00:00" "2024-01-01T18:45:00"
            "vitality" "scheduled"]).2 None = Ok out' /\
    Permutation (map as_create out')
      (map as_create out ++
       [TaskCreate.mk "Meal Prep" "2024-01-01T18:00:00" "2024-01-01T18:45:00"
          "vitality" "scheduled"])%list.
Proof.
  apply (list_tasks_after_accept PlainObject
           (sample_db (Some "mind") "scheduled" 0 1)
           [TaskCreate.mk "Meal Prep" "2024-01-01T18:00:00" "2024-01-01T18:45:00"
              "vitality" "scheduled"]).
  reflexivity.
Defined.

(** X12. A non-empty status filter: every row listed has that status, and
    every stored task with that status is listed. *)
Theorem list_tasks_filter (d : database) (status : string) :
  status <> "" ->
  exists out : list TaskOut.t,
    list_tasks (Some d) (Some status) = Ok out /\
    Forall (fun o => TaskOut.status o = status) out /\
    (forall r, In r (task d) -> Task.status r = Some status -> In (task_out r) out).
Proof.
  intros Hne. rewrite list_tasks_eq. eexists. split; [reflexivity |].
  destruct status as [| c s]; [contradiction |]. split.
  - rewrite List.Forall_forall. intros o Ho.
    apply in_map_iff in Ho as (r & <- & Hr).
    apply (Permutation_in _ (sort_perm _ _)) in Hr.
    apply filter_In in Hr as [_ Hsel]. simpl in Hsel.
    apply bool_decide_eq_true in Hsel. simpl. rewrite Hsel. reflexivity.
  - intros r Hr Hs. apply in_map.
    apply (Permutation_in _ (Permutation_sym (sort_perm _ _))).
    apply filter_In. split; [exact Hr |]. simpl.
    apply bool_decide_eq_true. exact Hs.
Qed.

Lemma list_tasks_filter_witness :
  exists out : list TaskOut.t,
    list_tasks (Some (sample_db (Some "mind") "done" 0 1)) (Some "done") = Ok out /\
    Forall (fun o => TaskOut.status o = "done") out /\
    (forall r, In r (task (sample_db (Some "mind") "done" 0 1)) ->
       Task.status r = Some "done" -> In (task_out r) out).
Proof.
  apply (list_tasks_filter (sample_db (Some "mind") "done" 0 1) "done").
  discriminate.
Defined.

(** A task without [status] is listed as scheduled and yet not retained by
    the filter on scheduled. *)
Example list_tasks_missing_status :
  let d := mk_database []
             [Task.mk oid1 (Some "Run") (Some "a") (Some "b") (Some "fitness") None None] 2 in
  (let* out := list_tasks (Some d) None in Ok (map TaskOut.status out)) = Ok ["scheduled"] /\
  list_tasks (Some d) (Some "scheduled") = Ok [].
Proof. split; reflexivity. Qed.

Section SortRelated.
Context {A : Type} (key : A -> string) (R : A -> A -> Prop).
Hypothesis R_key : forall x x', R x x' -> key x = key x'.

Lemma insert_Forall2 (x x' : A) (l l' : list A) :
  R x x' -> Forall2 R l l' ->
  Forall2 R (Py.insert key x l) (Py.insert key x' l').
Proof.
  intros Hx. induction 1 as [| y y' l l' Hy Hl IH]; simpl.
  - repeat constructor. exact Hx.
  - rewrite <- (R_key x x' Hx), <- (R_key y y' Hy).
    destruct (String.leb (key x) (key y)); repeat (constructor; try assumption).
Qed.

Lemma sort_Forall2 (l l' : list A) :
  Forall2 R l l' -> Forall2 R (Py.sort key l) (Py.sort key l').
Proof.
  induction 1; simpl; [constructor | apply insert_Forall2; assumption].
Qed.
End SortRelated.

Lemma update_one_Forall2 {D : Type} (f : D -> bool) (set : D -> D) (c : list D) :
  Forall2 (fun x x' => x' = x \/ x' = set x) c (Collection.update_one f set c).
Proof.
  induction c as [| x c IH]; simpl; [constructor |].
  destruct (f x); constructor; auto.
  clear. induction c; constructor; auto.
Qed.

(** X13. Completing a task changes the unfiltered listing in the status
    column only: the rows after the completion are the rows before, in the
    same order, each either equal or now done, and the row of the completed
    identifier is done. *)
Theorem list_tasks_after_complete (d : database) (now_task now_profile : Z)
    (task_id : string) (oid : ObjectId) (t : Task.t) :
  Bson.parse task_id = Ok oid ->
  Collection.find_one (has_task_id oid) (task d) = Some t ->
  exists out out' : list TaskOut.t,
    list_tasks (Some d) None = Ok out /\
    list_tasks (complete_task (Some d) now_task now_profile task_id).2 None = Ok out' /\
    Forall2 same_but_done out out' /\
    Exists (fun o => TaskOut.id o = Bson.str oid /\ TaskOut.status o = "done") out'.
Proof.
  intros Hparse Hfind.
  rewrite (complete_task_found d now_task now_profile task_id oid t Hparse Hfind).
  simpl. rewrite !list_tasks_eq, !filter_selected_None. simpl.
  eexists _, _. split; [reflexivity |]. split; [reflexivity |]. split.
  - apply Forall2_fmap.
    eapply Forall2_impl.
    + apply (sort_Forall2 (fun r => default "" (Task.start r))
               (fun x x' => x' = x \/ x' = set_done now_task x)).
      * intros x x' [-> | ->]; reflexivity.
      * apply update_one_Forall2.
    + intros x x' [-> | ->]; unfold same_but_done; simpl; tauto.
  - apply List.Exists_exists. exists (task_out (set_done now_task t)). split.
    + apply in_map. apply (Permutation_in _ (Permutation_sym (sort_perm _ _))).
      pose proof (find_one_update_one oid (set_done now_task) (task d) t
                    (fun _ => eq_refl) Hfind) as H.
      apply find_some in H as [H _]. exact H.
    + unfold Collection.find_one in Hfind. apply find_some in Hfind as [_ Hid].
      unfold has_task_id in Hid. apply bool_decide_eq_true in Hid.
      simpl. rewrite Hid. split; reflexivity.
Qed.

Lemma list_tasks_after_complete_witness :
  exists out out' : list TaskOut.t,
    list_tasks (Some (sample_db (Some "mind") "scheduled" 0 1)) None = Ok out /\
    list_tasks
      (complete_task (Some (sample_db (Some "mind") "scheduled" 0 1)) 5 6 id1).2 None
      = Ok out' /\
    Forall2 same_but_done out out' /\
    Exists (fun o => TaskOut.id o = Bson.str oid1 /\ TaskOut.status o = "done") out'.
Proof.
  apply (list_tasks_after_complete (sample_db (Some "mind") "scheduled" 0 1) 5 6 id1
           oid1 (sample_task (Some "mind") "scheduled"));
    reflexivity.
Defined.

(** X14. Tasks with the same [start] are listed in the order they were
    inserted in: for every start value, the rows listed with it are the
    retained tasks stored with it, in store order. *)
Theorem list_tasks_ties (d : database) (status : option string) (k : string) :
  exists out : list TaskOut.t,
    list_tasks (Some d) status = Ok out /\
    List.filter (fun o => String.eqb (TaskOut.start o) k) out =
    map task_out
      (List.filter (fun r => String.eqb (default "" (Task.start r)) k)
         (List.filter (selected status) (task d))).
Proof.
  rewrite list_tasks_eq. eexists. split; [reflexivity |].
  rewrite <- (sort_stable (fun r => default "" (Task.start r)) k).
  generalize (Py.sort (fun r => default "" (Task.start r))
                (List.filter (selected status) (task d))).
  intros l. induction l as [| r l IH]; simpl; [reflexivity |].
  destruct (String.eqb _ k); simpl; rewrite IH; reflexivity.
Qed.

(** ** Blocks of time *)

Lemma range_true (lo hi x : Z) :
  (lo <? x) && (x <=? hi) = true <-> lo < x <= hi.
Proof. rewrite andb_true_iff, Z.ltb_lt, Z.leb_le. reflexivity. Qed.

Lemma clock_true (h m : Z) :
  (0 <=? h) && (h <? 24) && (0 <=? m) && (m <? 60) = true <->
  0 <= h < 24 /\ 0 <= m < 60.
Proof. rewrite !andb_true_iff, !Z.leb_le, !Z.ltb_lt. tauto. Qed.

(** X15. A block computed by [iso] ends exactly [duration_min] minutes
    after it starts, across midnight too: the start is the given time on
    the day [day_offset] days from today, and the end is a time of day in
    range with seconds at zero. *)
Theorem iso_duration (today : Datetime.date) (day_offset hour minute duration_min : Z) :
  Datetime.valid_date (today + day_offset) ->
  0 <= hour < 24 -> 0 <= minute < 60 ->
  Datetime.valid_date
    (today + day_offset + (hour * 60 + minute + duration_min) / 1440) ->
  exists start_dt end_dt : Datetime.datetime,
    iso today day_offset hour minute duration_min =
      Ok (Datetime.isoformat start_dt, Datetime.isoformat end_dt) /\
    start_dt = Datetime.mk_datetime (today + day_offset) hour minute 0 0 /\
    minute_of_era end_dt = minute_of_era start_dt + duration_min /\
    0 <= Datetime.hour end_dt < 24 /\ 0 <= Datetime.minute end_dt < 60 /\
    Datetime.second end_dt = 0 /\ Datetime.microsecond end_dt = 0.
Proof.
  intros Hd Hh Hm Hend.
  set (T := hour * 60 + minute + duration_min) in *.
  exists (Datetime.mk_datetime (today + day_offset) hour minute 0 0),
    (Datetime.mk_datetime (today + day_offset + T / 1440)
       (T mod 1440 / 60) (T mod 1440 mod 60) 0 0).
  split.
  - unfold iso, Datetime.date_add_days.
    rewrite (proj2 (range_true 0 Datetime.MAXORDINAL (today + day_offset)) Hd).
    simpl bind. unfold Datetime.replace, Datetime.combine_min.
    rewrite (proj2 (clock_true hour minute) (conj Hh Hm)).
    simpl bind. unfold Datetime.add_minutes. simpl Datetime.dt_date.
    simpl Datetime.hour. simpl Datetime.minute. simpl Datetime.second.
    simpl Datetime.microsecond.
    set (secs := hour * 3600 + minute * 60 + 0 + duration_min * 60).
    assert (Hsecs : secs = T * 60) by (unfold secs, T; lia).
    assert (Hday : secs / 86400 = T / 1440)
      by (rewrite Hsecs; Z.to_euclidean_division_equations; lia).
    assert (Hrem : secs mod 86400 = T mod 1440 * 60)
      by (rewrite Hsecs; Z.to_euclidean_division_equations; lia).
    rewrite Hday, Hrem.
    rewrite (proj2 (range_true 0 Datetime.MAXORDINAL _) Hend). simpl bind.
    replace (T mod 1440 * 60 / 3600) with (T mod 1440 / 60)
      by (Z.to_euclidean_division_equations; lia).
    replace (T mod 1440 * 60 mod 3600 / 60) with (T mod 1440 mod 60)
      by (Z.to_euclidean_division_equations; lia).
    replace (T mod 1440 * 60 mod 60) with 0
      by (Z.to_euclidean_division_equations; lia).
    reflexivity.
  - split; [reflexivity |]. unfold minute_of_era. simpl.
    repeat split; try (Z.to_euclidean_division_equations; lia).
Qed.

Lemma iso_duration_witness :
  exists start_dt end_dt : Datetime.datetime,
    iso 738886 1 23 50 30 =
      Ok (Datetime.isoformat start_dt, Datetime.isoformat end_dt) /\
    start_dt = Datetime.mk_datetime (738886 + 1) 23 50 0 0 /\
    minute_of_era end_dt = minute_of_era start_dt + 30 /\
    0 <= Datetime.hour end_dt < 24 /\ 0 <= Datetime.minute end_dt < 60 /\
    Datetime.second end_dt = 0 /\ Datetime.microsecond end_dt = 0.
Proof.
  apply (iso_duration 738886 1 23 50 30);
    unfold Datetime.valid_date, Datetime.MAXORDINAL;
    first [lia | Z.to_euclidean_division_equations; lia].
Defined.

Example iso_across_midnight :
  iso 738886 1 23 50 30 = Ok ("2024-01-02T23:50:00", "2024-01-03T00:20:00").
Proof. reflexivity. Qed.

(** X16. [iso] answers exactly when the day of the block is a date, the
    hour and the minute are those of a clock, and the day the block ends
    on is a date; otherwise it raises. *)
Theorem iso_succeeds_iff (today : Datetime.date) (day_offset hour minute duration_min : Z) :
  (exists se, iso today day_offset hour minute duration_min = Ok se) <->
  Datetime.valid_date (today + day_offset) /\
  0 <= hour < 24 /\ 0 <= minute < 60 /\
  Datetime.valid_date
    (today + day_offset + (hour * 60 + minute + duration_min) / 1440).
Proof.
  unfold iso, Datetime.date_add_days.
  destruct ((0 <? today + day_offset) && (today + day_offset <=? Datetime.MAXORDINAL))
    eqn:Hd; simpl bind.
  2:{ split; [intros [se H]; discriminate H |].
      intros (H & _). apply range_true in H. congruence. }
  apply range_true in Hd.
  unfold Datetime.replace, Datetime.combine_min.
  destruct ((0 <=? hour) && (hour <? 24) && (0 <=? minute) && (minute <? 60))
    eqn:Hc; simpl bind.
  2:{ split; [intros [se H]; discriminate H |].
      intros (_ & Hh & Hm & _).
      rewrite (proj2 (clock_true hour minute) (conj Hh Hm)) in Hc. discriminate. }
  apply clock_true in Hc as [Hh Hm].
  unfold Datetime.add_minutes. simpl Datetime.dt_date.
  simpl Datetime.hour. simpl Datetime.minute. simpl Datetime.second.
  replace ((hour * 3600 + minute * 60 + 0 + duration_min * 60) / 86400)
    with ((hour * 60 + minute + duration_min) / 1440)
    by (Z.to_euclidean_division_equations; lia).
  destruct ((0 <? _) && (_ <=? Datetime.MAXORDINAL)) eqn:He; simpl bind.
  - apply range_true in He.
    split; [intros _; unfold Datetime.valid_date; lia | intros _; eauto].
  - split; [intros [se H]; discriminate H |].
    intros (_ & _ & _ & H). apply range_true in H. congruence.
Qed.

Example iso_bad_hour : iso 738886 0 24 0 25 = Raise ValueError.
Proof. reflexivity. Qed.

Example iso_past_last_day : iso Datetime.MAXORDINAL 0 23 50 30 = Raise OverflowError.
Proof. reflexivity. Qed.

Lemma compare_append_l (p a b : string) :
  String.compare (p +:+ a) (p +:+ b) = String.compare a b.
Proof.
  induction p as [| c p IH]; [reflexivity |].
  rewrite !append_cons. simpl. unfold Ascii.compare.
  rewrite N.compare_refl. exact IH.
Qed.

Lemma propose_onboarding_eq (today : Datetime.date) (data : OnboardingInput.t) :
  Datetime.valid_date today ->
  propose_onboarding today data =
    Ok (base_protocol today
          (Py.contains "low" (Py.or_empty (OnboardingInput.energy_pattern data)))).
Proof.
  intros Hd. unfold propose_onboarding.
  rewrite (iso_within_today today 12 30 40), (iso_within_today today 18 0 45)
    by (assumption || lia).
  destruct (Py.contains _ _).
  - rewrite (iso_within_today today 7 0 25) by (assumption || lia). reflexivity.
  - rewrite (iso_within_today today 19 0 25) by (assumption || lia). reflexivity.
Qed.

(** The order of two texts that start with the same day. *)
Ltac same_day :=
  cbn [ProposedBlock.start ProposedBlock.end_];
  unfold str_le, String.leb, String.ltb; rewrite compare_append_l; reflexivity.

(** X17. The blocks of a proposed plan are intervals that do not collide:
    each ends after it starts, and of two different blocks one ends before
    the other starts, in the order of the texts that the tasks are later
    sorted by. *)
Theorem propose_onboarding_disjoint (today : Datetime.date) (data : OnboardingInput.t) :
  Datetime.valid_date today ->
  exists plan : OnboardingPlan.t,
    propose_onboarding today data = Ok plan /\
    Forall (fun b => String.ltb (ProposedBlock.start b) (ProposedBlock.end_ b) = true)
      (OnboardingPlan.blocks plan) /\
    (forall b1 b2,
       In b1 (OnboardingPlan.blocks plan) -> In b2 (OnboardingPlan.blocks plan) ->
       b1 <> b2 ->
       str_le (ProposedBlock.end_ b1) (ProposedBlock.start b2) \/
       str_le (ProposedBlock.end_ b2) (ProposedBlock.start b1)).
Proof.
  intros Hd. rewrite (propose_onboarding_eq today data Hd).
  eexists. split; [reflexivity |].
  destruct (Py.contains _ _); simpl;
    (split; [repeat (constructor; [same_day |]); constructor |]);
    intros b1 b2 [<- | [<- | [<- | []]]] [<- | [<- | [<- | []]]] Hne;
    try congruence;
    first [left; same_day | right; same_day].
Qed.

Lemma propose_onboarding_disjoint_witness :
  exists plan : OnboardingPlan.t,
    propose_onboarding 738886
      (OnboardingInput.mk ["Learn Python"] "time" None (Some "morning-person")) = Ok plan /\
    Forall (fun b => String.ltb (ProposedBlock.start b) (ProposedBlock.end_ b) = true)
      (OnboardingPlan.blocks plan) /\
    (forall b1 b2,
       In b1 (OnboardingPlan.blocks plan) -> In b2 (OnboardingPlan.blocks plan) ->
       b1 <> b2 ->
       str_le (ProposedBlock.end_ b1) (ProposedBlock.start b2) \/
       str_le (ProposedBlock.end_ b2) (ProposedBlock.start b1)).
Proof.
  apply (propose_onboarding_disjoint 738886
           (OnboardingInput.mk ["Learn Python"] "time" None (Some "morning-person"))).
  unfold Datetime.valid_date, Datetime.MAXORDINAL. lia.
Defined.
